(** * CarND-Semantic-Segmentation: the training script [main.py]

    A shallow embedding of [main.py]: the graph construction of [layers]
    with the static shape inference of the tensor library, the training loop
    [train_nn] and the entry point [run], as computations over an explicit
    world (session, environment) that record the collaborators they call. *)

From Stdlib Require Import ZArith QArith List String Bool Lia Permutation Arith.
Import ListNotations.

Local Open Scope string_scope.
Local Open Scope list_scope.
Local Open Scope Z_scope.

(** ** Module-level constants (main.py, lines 9-12) *)

Definition NUM_EPOCHS : Z := 50.
Definition BATCH_SIZE : Z := 16.
Definition KP_VALUE : Q := 0.5%Q.
Definition LR_VALUE : Q := 0.001%Q.

(** ** Tensors and static shapes

    A dimension is [None] when it is not known before run time, as in
    [tf.placeholder(tf.float32, [None, 160, 576, 2])]. A tensor shape is the
    list of its dimensions, or [None] when even the rank is unknown
    ([tf.placeholder(tf.float32)]). *)

Definition dim := option Z.
Definition TensorShape := option (list dim).

Inductive padding := SAME | VALID.

(** Graph nodes. Every node carries its name and the static shape the
    library inferred for it when it was built. *)
Inductive tensor : Type :=
| Placeholder (name : string) (shape : TensorShape)
| Conv2D (name : string) (shape : TensorShape) (inputs : tensor)
         (filters kernel_size : Z) (strides : Z * Z) (pad : padding)
| Conv2DTranspose (name : string) (shape : TensorShape) (inputs : tensor)
         (filters kernel_size : Z) (strides : Z * Z) (pad : padding)
| Add (name : string) (shape : TensorShape) (x y : tensor)
| Reshape (name : string) (shape : TensorShape) (t : tensor)
| SoftmaxCrossEntropy (shape : TensorShape) (logits labels : tensor)
| ReduceMean (name : string) (t : tensor).

Inductive operation : Type :=
| Minimize (name : string) (learning_rate loss : tensor)
| GlobalVariablesInitializer.

Definition get_shape (t : tensor) : TensorShape :=
  match t with
  | Placeholder _ s => s
  | Conv2D _ s _ _ _ _ _ => s
  | Conv2DTranspose _ s _ _ _ _ _ => s
  | Add _ s _ _ => s
  | Reshape _ s _ => s
  | SoftmaxCrossEntropy s _ _ => s
  | ReduceMean _ _ => Some []
  end.

(** Tensors are compared as graph nodes: two handles are the same key of a
    feed dictionary exactly when they are the same node. *)
Definition tensor_eq_dec : forall a b : tensor, {a = b} + {a <> b}.
Proof.
  repeat decide equality; try apply Z.eq_dec; try apply Ascii.ascii_dec.
Defined.

(** [t.get_shape().as_list()[-1]]: [as_list] fails on an unknown rank and
    [[-1]] on an empty list; the last dimension itself may be unknown. *)
Definition as_list_last (s : TensorShape) : option dim :=
  match s with
  | None => None
  | Some dims => match rev dims with
                 | [] => None
                 | d :: _ => Some d
                 end
  end.

(** Output extent of a convolution along one spatial axis: [ceil(n / s)]
    with SAME padding, [floor((n - k) / s) + 1] with VALID padding, where
    the library rejects an input shorter than the kernel. *)
Definition conv_out (d : dim) (k s : Z) (p : padding) : option dim :=
  match d with
  | None => Some None
  | Some n =>
      match p with
      | SAME => Some (Some ((n + s - 1) / s))
      | VALID => if k <=? n then Some (Some ((n - k) / s + 1)) else None
      end
  end.

(** Output extent of a transposed convolution along one spatial axis. *)
Definition deconv_out (d : dim) (k s : Z) (p : padding) : dim :=
  match d with
  | None => None
  | Some n => Some (match p with
                    | SAME => n * s
                    | VALID => n * s + Z.max (k - s) 0
                    end)
  end.

(** [tf.layers.conv2d(inputs, filters, kernel_size, strides, padding, name)]:
    the input has rank 4 (batch, height, width, channels) and a known
    number of channels, and the filter count is not negative (later
    versions of the library also refuse 0; the properties below that build
    a graph take positive counts). [None] stands for the error the library
    raises. *)
Definition conv2d (inputs : tensor) (filters kernel_size : Z)
           (strides : Z * Z) (pad : padding) (name : string) : option tensor :=
  match get_shape inputs with
  | Some [n; h; w; Some _] =>
      if filters <? 0 then None
      else
        match conv_out h kernel_size (fst strides) pad,
              conv_out w kernel_size (snd strides) pad with
        | Some h', Some w' =>
            Some (Conv2D name (Some [n; h'; w'; Some filters]) inputs
                         filters kernel_size strides pad)
        | _, _ => None
        end
  | _ => None
  end.

(** [tf.layers.conv2d_transpose(inputs, filters, kernel_size, strides,
    padding, name)]; [filters] is what the caller computed, [None] when it
    is not an integer. A negative filter count is rejected. *)
Definition conv2d_transpose (inputs : tensor) (filters : dim) (kernel_size : Z)
           (strides : Z * Z) (pad : padding) (name : string) : option tensor :=
  match get_shape inputs, filters with
  | Some [n; h; w; Some _], Some f =>
      if f <? 0 then None
      else
        Some (Conv2DTranspose name
                (Some [n; deconv_out h kernel_size (fst strides) pad;
                       deconv_out w kernel_size (snd strides) pad; Some f])
                inputs f kernel_size strides pad)
  | _, _ => None
  end.

(** Broadcasting of two dimensions, as the library's static shape
    inference does it. *)
Definition broadcast_dim (a b : dim) : option dim :=
  match a, b with
  | Some x, Some y =>
      if x =? y then Some (Some x)
      else if x =? 1 then Some (Some y)
      else if y =? 1 then Some (Some x)
      else None
  | Some x, None => if 1 <? x then Some (Some x) else Some None
  | None, Some y => if 1 <? y then Some (Some y) else Some None
  | None, None => Some None
  end.

(** Dimensions are aligned from the right; the lists are reversed here. *)
Fixpoint broadcast_rev (xs ys : list dim) : option (list dim) :=
  match xs, ys with
  | [], _ => Some ys
  | _, [] => Some xs
  | a :: xs', b :: ys' =>
      match broadcast_dim a b, broadcast_rev xs' ys' with
      | Some d, Some ds => Some (d :: ds)
      | _, _ => None
      end
  end.

Definition broadcast_shape (s1 s2 : TensorShape) : option TensorShape :=
  match s1, s2 with
  | Some xs, Some ys =>
      match broadcast_rev (rev xs) (rev ys) with
      | Some ds => Some (Some (rev ds))
      | None => None
      end
  | _, _ => Some None
  end.

(** [tf.add(x, y, name)]. *)
Definition tf_add (x y : tensor) (name : string) : option tensor :=
  match broadcast_shape (get_shape x) (get_shape y) with
  | Some s => Some (Add name s x y)
  | None => None
  end.

(** ** [layers] (main.py, lines 53-81) *)

Definition bind_opt {A B} (m : option A) (f : A -> option B) : option B :=
  match m with
  | Some a => f a
  | None => None
  end.

Notation "x <-? m ;; k" := (bind_opt m (fun x => k))
  (at level 61, m at next level, right associativity).

Definition layers (vgg_layer3_out vgg_layer4_out vgg_layer7_out : tensor)
           (num_classes : Z) : option tensor :=
  fcn_layer8 <-? conv2d vgg_layer7_out num_classes 1 (1, 1) VALID "fcn_layer8" ;;
  filters9 <-? as_list_last (get_shape vgg_layer4_out) ;;
  fcn_layer9 <-? conv2d_transpose fcn_layer8 filters9 4 (2, 2) SAME "fcn_layer9" ;;
  fcn_layer9_skip_from_layer4 <-?
    tf_add fcn_layer9 vgg_layer4_out "fcn_layer9_skip_from_vgg_layer4" ;;
  filters10 <-? as_list_last (get_shape vgg_layer3_out) ;;
  fcn_layer10 <-?
    conv2d_transpose fcn_layer9_skip_from_layer4 filters10 4 (2, 2) SAME "fcn10_conv2d" ;;
  fcn_layer10_skip_from_layer3 <-?
    tf_add fcn_layer10 vgg_layer3_out "fcn10_skip_from_vgg_layer3" ;;
  fcn_layer11 <-?
    conv2d_transpose fcn_layer10_skip_from_layer3 (Some num_classes) 16 (8, 8) SAME
      "fcn_layer11" ;;
  Some fcn_layer11.

(** The operand pairs of every elementwise addition of a graph. *)
Fixpoint adds_of (t : tensor) : list (tensor * tensor) :=
  match t with
  | Placeholder _ _ => []
  | Conv2D _ _ i _ _ _ _ => adds_of i
  | Conv2DTranspose _ _ i _ _ _ _ => adds_of i
  | Add _ _ x y => adds_of x ++ adds_of y ++ [(x, y)]
  | Reshape _ _ t' => adds_of t'
  | SoftmaxCrossEntropy _ l y => adds_of l ++ adds_of y
  | ReduceMean _ t' => adds_of t'
  end.

(** [optimize] (main.py, lines 85-107). The static shape of a reshape to
    [(-1, num_classes)] is [(?, num_classes)] for a tensor with an unknown
    extent, as both tensors that [run] passes have; the checks the library
    makes on a fully known shape are outside this model, in which
    [optimize] always builds its three handles. *)
Definition reshape_shape (s : TensorShape) (cols : Z) : TensorShape :=
  Some [None; Some cols].

Definition optimize (nn_last_layer correct_label learning_rate : tensor)
           (num_classes : Z) : tensor * operation * tensor :=
  let logits :=
    Reshape "fcn_logits" (reshape_shape (get_shape nn_last_layer) num_classes)
            nn_last_layer in
  let training_y_labels :=
    Reshape "Reshape" (reshape_shape (get_shape correct_label) num_classes)
            correct_label in
  let cross_entropy := SoftmaxCrossEntropy (Some [None]) logits training_y_labels in
  let cross_entropy_loss := ReduceMean "fcn_loss" cross_entropy in
  let train_op := Minimize "fcn_train_op" learning_rate cross_entropy_loss in
  (logits, train_op, cross_entropy_loss).

(** ** Collaborators

    What the script consumes from the tensor library, from [helper] and from
    [project_tests]. The session state [Sess] holds the values of the graph
    variables (the model parameters); [Env] is the file system together with
    the state of the random generator. *)

Inductive feed_value (Image Label : Type) : Type :=
| FImages (X : list Image)
| FLabels (y : list Label)
| FScalar (q : Q).
Arguments FImages {Image Label} X.
Arguments FLabels {Image Label} y.
Arguments FScalar {Image Label} q.

(** A feed dictionary: its entries in insertion order, one per key. *)
Definition feed_dict (Image Label : Type) : Type :=
  list (tensor * feed_value Image Label).

Class Platform : Type := {
  Err : Type;
  Loss : Type;
  loss_zero : Loss;
  loss_add : Loss -> Loss -> Loss;
  Image : Type;
  Label : Type;
  Scores : Type;
  Sess : Type;
  Env : Type;
  (** [sess.run([loss, train_op], feed_dict)]: one optimization step. *)
  session_run_step :
    tensor -> operation -> feed_dict Image Label -> Sess -> Err + (Loss * Sess);
  (** [sess.run(tf.global_variables_initializer())]. *)
  session_run_init : Sess -> Err + Sess;
  (** Evaluation of an output tensor given a feed; it reads the session
      and returns the value, without a new session state. *)
  session_evaluate : tensor -> feed_dict Image Label -> Sess -> Err + Scores;
  (** [tf.saved_model.loader.load(sess, tags, path)]. *)
  saved_model_loader_load : list string -> string -> Env -> Sess -> Err + Sess;
  (** [tf.get_default_graph().get_tensor_by_name(name)]. *)
  graph_get_tensor_by_name : string -> Sess -> Err + tensor;
  (** The error a failed graph construction raises. *)
  graph_error : Err;
  (** [tests.test_for_kitti_dataset(data_dir)]: the failed assertion, if any. *)
  test_for_kitti_dataset : string -> Env -> option Err;
  (** [helper.maybe_download_pretrained_vgg(data_dir)]. *)
  maybe_download_pretrained_vgg : string -> Env -> Err + Env;
  (** The paired image and label files under a training folder, resized to
      the image shape; an error when the folder or the pairs are absent. *)
  training_samples : string -> Z * Z -> Env -> Err + list (Image * Label);
  (** The error for a batch size outside the generator's contract. *)
  batch_size_error : Z -> Err;
  (** A random index below [n], drawn from the generator state in [Env]. *)
  randbelow : nat -> Env -> nat * Env;
  (** The images of the test folder, with their file names. *)
  test_images : string -> Z * Z -> Env -> Err + list (string * Image);
  (** Creation of the timestamped output directory under [runs_dir]. *)
  make_output_dir : string -> Env -> Err + (string * Env);
  (** Threshold, colorize and overlay the class scores on the image. *)
  overlay : Image -> Scores -> Image;
  (** Writing one composite image into the output directory. *)
  write_image : string -> string -> Image -> Env -> Err + Env;
  (** The keep probability fed during inference. *)
  inference_keep_prob : Q
}.

Section Script.

Context {P : Platform}.

Definition feed : Type := feed_dict Image Label.

(** [d[k] = v]: the value of an existing key is replaced where the key
    stands, a new key is appended. *)
Fixpoint dict_set (d : feed) (k : tensor) (v : feed_value Image Label) : feed :=
  match d with
  | [] => [(k, v)]
  | (k', v') :: d' =>
      if tensor_eq_dec k k' then (k', v) :: d' else (k', v') :: dict_set d' k v
  end.

(** A dict display [{k1: v1, k2: v2, ...}]: the entries are set from left
    to right, so a repeated key keeps one entry, with its last value. *)
Definition dict_display (entries : list (tensor * feed_value Image Label)) : feed :=
  fold_left (fun d kv => dict_set d (fst kv) (snd kv)) entries [].

(** [d.get(k)]. *)
Fixpoint dict_get (d : feed) (k : tensor) : option (feed_value Image Label) :=
  match d with
  | [] => None
  | (k', v) :: d' => if tensor_eq_dec k k' then Some v else dict_get d' k
  end.

(** ** The world and the computations over it *)

Record World : Type := { env : Env; sess : Sess }.

(** Lines printed by [train_nn]. *)
Inductive line : Type :=
| EpochLine (n : Z)          (* "EPOCH {} ..." *)
| LossLine (total : Loss)    (* "Loss = {:.3f}" *)
| BlankLine.

(** Calls to the collaborators, in the order they happen. *)
Inductive event : Type :=
| CheckDataset (data_dir : string)
| DownloadVgg (data_dir : string)
| LoadModel (tags : list string) (path : string)
| InitVariables
| GetBatches (batch_size : Z)
| TrainStep (fd : feed) (r : Err + Loss)
| Print (l : line)
| Evaluate (t : tensor) (fd : feed) (r : Err + Scores)
| MakeOutputDir (runs_dir : string)
| WriteImage (dir name : string).

Inductive result (A : Type) : Type :=
| Returned (a : A)
| Raised (e : Err).
Arguments Returned {A} a.
Arguments Raised {A} e.

(** A computation maps the world to its result, the world it leaves and
    the events it produced. An exception keeps the world and the events up
    to the point where it was raised. *)
Definition M (A : Type) : Type := World -> result A * World * list event.

Definition ret {A} (a : A) : M A := fun w => (Returned a, w, []).

Definition raise {A} (e : Err) : M A := fun w => (Raised e, w, []).

Definition bind {A B} (m : M A) (f : A -> M B) : M B :=
  fun w =>
    match m w with
    | (Returned a, w1, t1) =>
        match f a w1 with
        | (r, w2, t2) => (r, w2, t1 ++ t2)
        end
    | (Raised e, w1, t1) => (Raised e, w1, t1)
    end.

Notation "x <- m ;; k" := (bind m (fun x => k))
  (at level 61, m at next level, right associativity).
Notation "m ;; k" := (bind m (fun _ => k))
  (at level 61, right associativity).

Definition outcome {A} (o : result A * World * list event) : result A := fst (fst o).
Definition final {A} (o : result A * World * list event) : World := snd (fst o).
Definition trace {A} (o : result A * World * list event) : list event := snd o.

(** Python's [for x in l: body]. *)
Fixpoint for_each {A} (l : list A) (body : A -> M unit) : M unit :=
  match l with
  | [] => ret tt
  | x :: l' => body x ;; for_each l' body
  end.

(** Python's [range(n)]. *)
Definition range (n : Z) : list Z := map Z.of_nat (seq 0 (Z.to_nat n)).

(** *** Calls to the collaborators *)

Definition print (l : line) : M unit := fun w => (Returned tt, w, [Print l]).

Definition sess_run_step (loss : tensor) (op : operation) (fd : feed) : M Loss :=
  fun w =>
    match session_run_step loss op fd (sess w) with
    | inr (l, s') => (Returned l, {| env := env w; sess := s' |}, [TrainStep fd (inr l)])
    | inl e => (Raised e, w, [TrainStep fd (inl e)])
    end.

Definition sess_run_init : M unit :=
  fun w =>
    match session_run_init (sess w) with
    | inr s' => (Returned tt, {| env := env w; sess := s' |}, [InitVariables])
    | inl e => (Raised e, w, [InitVariables])
    end.

Definition sess_evaluate (t : tensor) (fd : feed) : M Scores :=
  fun w =>
    match session_evaluate t fd (sess w) with
    | inr v => (Returned v, w, [Evaluate t fd (inr v)])
    | inl e => (Raised e, w, [Evaluate t fd (inl e)])
    end.

Definition loader_load (tags : list string) (path : string) : M unit :=
  fun w =>
    match saved_model_loader_load tags path (env w) (sess w) with
    | inr s' => (Returned tt, {| env := env w; sess := s' |}, [LoadModel tags path])
    | inl e => (Raised e, w, [LoadModel tags path])
    end.

Definition get_tensor_by_name (name : string) : M tensor :=
  fun w =>
    match graph_get_tensor_by_name name (sess w) with
    | inr t => (Returned t, w, [])
    | inl e => (Raised e, w, [])
    end.

Definition check_kitti_dataset (data_dir : string) : M unit :=
  fun w =>
    match test_for_kitti_dataset data_dir (env w) with
    | None => (Returned tt, w, [CheckDataset data_dir])
    | Some e => (Raised e, w, [CheckDataset data_dir])
    end.

Definition download_pretrained_vgg (data_dir : string) : M unit :=
  fun w =>
    match maybe_download_pretrained_vgg data_dir (env w) with
    | inr e' => (Returned tt, {| env := e'; sess := sess w |}, [DownloadVgg data_dir])
    | inl e => (Raised e, w, [DownloadVgg data_dir])
    end.

(** Graph construction inside a computation: a construction error is
    raised as an exception. *)
Definition build {A} (g : option A) : M A :=
  match g with
  | Some a => ret a
  | None => raise graph_error
  end.

(** ** The batch generator

    [get_batches_fn(batch_size)] returns a Python generator: a finite lazy
    sequence of [(X_batch, y_batch)] pairs that may end in an exception.
    What it reads and draws from the environment does not depend on the
    session, so its effect on [Env] is taken at the call. *)

Inductive batches : Type :=
| Stop
| Yield (X_batch : list Image) (y_batch : list Label) (next : batches)
| Throw (e : Err).

Definition batch_function : Type := Z -> Env -> batches * Env.

Definition call_batches (get_batches_fn : batch_function) (batch_size : Z) : M batches :=
  fun w =>
    match get_batches_fn batch_size (env w) with
    | (gen, e') => (Returned gen, {| env := e'; sess := sess w |}, [GetBatches batch_size])
    end.

(** ** [load_vgg] (main.py, lines 25-49) *)

Definition load_vgg (vgg_path : string)
  : M (tensor * tensor * tensor * tensor * tensor) :=
  let vgg_tag := "vgg16" in
  let vgg_input_tensor_name := "image_input:0" in
  let vgg_keep_prob_tensor_name := "keep_prob:0" in
  let vgg_layer3_out_tensor_name := "layer3_out:0" in
  let vgg_layer4_out_tensor_name := "layer4_out:0" in
  let vgg_layer7_out_tensor_name := "layer7_out:0" in
  loader_load [vgg_tag] vgg_path ;;
  input <- get_tensor_by_name vgg_input_tensor_name ;;
  keep <- get_tensor_by_name vgg_keep_prob_tensor_name ;;
  layer3 <- get_tensor_by_name vgg_layer3_out_tensor_name ;;
  layer4 <- get_tensor_by_name vgg_layer4_out_tensor_name ;;
  layer7 <- get_tensor_by_name vgg_layer7_out_tensor_name ;;
  ret (input, keep, layer3, layer4, layer7).

(** ** [train_nn] (main.py, lines 111-138)

    The session argument is the [sess] component of the world. *)

Section TrainNN.

Variables (epochs batch_size : Z) (get_batches_fn : batch_function)
          (train_op : operation)
          (cross_entropy_loss input_image correct_label keep_prob learning_rate : tensor).

(** The feed of one optimization step (lines 131-132). *)
Definition step_feed (X_batch : list Image) (y_batch : list Label) : feed :=
  dict_display
    [ (input_image, FImages X_batch); (correct_label, FLabels y_batch);
      (keep_prob, FScalar KP_VALUE); (learning_rate, FScalar LR_VALUE) ].

(** The inner loop (lines 129-134), with [total_loss] passed along. *)
Fixpoint train_batches (gen : batches) (total_loss : Loss) : M Loss :=
  match gen with
  | Stop => ret total_loss
  | Throw e => raise e
  | Yield X_batch y_batch next =>
      loss <- sess_run_step cross_entropy_loss train_op (step_feed X_batch y_batch) ;;
      train_batches next (loss_add total_loss loss)
  end.

(** The body of the outer loop (lines 127-138). *)
Definition train_epoch (epoch : Z) : M unit :=
  let total_loss := loss_zero in
  gen <- call_batches get_batches_fn batch_size ;;
  total_loss <- train_batches gen total_loss ;;
  print (EpochLine (epoch + 1)) ;;
  print (LossLine total_loss) ;;
  print BlankLine.

Definition train_nn : M unit := for_each (range epochs) train_epoch.

End TrainNN.

(** ** The helpers of [helper.py] *)

(** Modelled from the spec: the pieces of the batch generator of section
    4.1, which is not part of the sources. Removal of the element at
    position [i]. *)
Fixpoint remove_nth {A} (i : nat) (l : list A) {struct l} : option (A * list A) :=
  match l with
  | [] => None
  | x :: l' =>
      match i with
      | O => Some (x, l')
      | S i' =>
          match remove_nth i' l' with
          | Some (y, r) => Some (y, x :: r)
          | None => None
          end
      end
  end.

(** Modelled from the spec: the "freshly randomized order" of section 4.1.
    Each position takes a random element of those that remain; [n] is the
    number of elements of [l]. *)
Fixpoint shuffle {A} (n : nat) (l : list A) (e : Env) : list A * Env :=
  match n with
  | O => (l, e)
  | S n' =>
      match randbelow (S n') e with
      | (i, e') =>
          match remove_nth (i mod S n')%nat l with
          | Some (x, rest) =>
              match shuffle n' rest e' with
              | (t, e'') => (x :: t, e'')
              end
          | None => (l, e')
          end
      end
  end.

(** Modelled from the spec: the batches of section 3, consecutive groups
    of [b] elements, the last of which may be short. *)
Definition chunks {A} (b : nat) (l : list A) : list (list A) :=
  map (fun k => firstn b (skipn (k * b)%nat l))
      (seq 0 ((List.length l + b - 1) / b)%nat).

(** Modelled from the spec: the lazy sequence of (image-batch, label-batch)
    pairs of section 4.1, one pair per batch. *)
Fixpoint yield_all (bs : list (list (Image * Label))) : batches :=
  match bs with
  | [] => Stop
  | b :: bs' => Yield (map fst b) (map snd b) (yield_all bs')
  end.

(** Modelled from the spec: [helper.gen_batch_function], which is not part
    of the sources. Section 4.1: given a batch size of at least 1, the
    generator produces a finite sequence of (image-batch, label-batch)
    pairs covering the entire training set exactly once, in a freshly
    randomized order each time it is invoked; it signals a configuration
    error when the directory structure or the paired files are absent.
    Section 3: a batch is an ordered group of [batch_size] samples, and the
    last batch of an epoch may be short. A batch size below 1 is outside
    the contract and is rejected. *)
Definition gen_batch_function (data_folder : string) (image_shape : Z * Z)
  : batch_function :=
  fun batch_size e =>
    match training_samples data_folder image_shape e with
    | inl err => (Throw err, e)
    | inr samples =>
        if batch_size <? 1 then (Throw (batch_size_error batch_size), e)
        else
          match shuffle (List.length samples) samples e with
          | (order, e') => (yield_all (chunks (Z.to_nat batch_size) order), e')
          end
    end.

(** Modelled from the spec: the three file-system steps of section 4.3,
    as calls to the collaborators. *)
Definition make_dir (runs_dir : string) : M string :=
  fun w =>
    match make_output_dir runs_dir (env w) with
    | inr (d, e') => (Returned d, {| env := e'; sess := sess w |}, [MakeOutputDir runs_dir])
    | inl e => (Raised e, w, [MakeOutputDir runs_dir])
    end.

Definition list_test_images (data_dir : string) (image_shape : Z * Z)
  : M (list (string * Image)) :=
  fun w =>
    match test_images data_dir image_shape (env w) with
    | inr l => (Returned l, w, [])
    | inl e => (Raised e, w, [])
    end.

Definition save_image (dir name : string) (img : Image) : M unit :=
  fun w =>
    match write_image dir name img (env w) with
    | inr e' => (Returned tt, {| env := e'; sess := sess w |}, [WriteImage dir name])
    | inl e => (Raised e, w, [WriteImage dir name])
    end.

(** Modelled from the spec: [helper.save_inference_samples], which is not
    part of the sources. Section 4.3: for each image in a fixed test
    directory, it runs one forward pass through the trained model,
    thresholds and colorizes the per-pixel class scores, overlays the
    result on the original image, and writes the composite to a
    timestamped output directory; purely sequential. Section 6: the forward
    pass is the engine's evaluation of an output tensor given a feed. *)
Definition save_inference_samples (runs_dir data_dir : string) (image_shape : Z * Z)
           (logits keep_prob input_image : tensor) : M unit :=
  output_dir <- make_dir runs_dir ;;
  images <- list_test_images data_dir image_shape ;;
  for_each images (fun '(name, image) =>
    scores <- sess_evaluate logits
                (dict_display [ (keep_prob, FScalar inference_keep_prob);
                                (input_image, FImages [image]) ]) ;;
    save_image output_dir name (overlay image scores)).

(** ** [run] (main.py, lines 142-182) *)

(** [os.path.join(a, b)] (posixpath): an absolute [b] replaces [a]; the
    separator is added unless [a] is empty or ends with it. *)
Fixpoint ends_with_sep (s : string) : bool :=
  match s with
  | EmptyString => false
  | String c EmptyString => Ascii.eqb c (Ascii.ascii_of_nat 47)
  | String _ s' => ends_with_sep s'
  end.

Definition os_path_join (a b : string) : string :=
  if String.prefix "/" b then b
  else if String.eqb a EmptyString || ends_with_sep a then String.append a b
  else String.append a (String.append "/" b).

(** [tf.Session()] is the session of the initial world. The names of the
    two placeholders are chosen by the library; they are named here after
    the variables they are bound to. *)
Definition run : M unit :=
  let num_classes := 2 in
  let image_shape := (160, 576) in
  let data_dir := "./data" in
  let runs_dir := "./runs" in
  let correct_label :=
    Placeholder "correct_label"
      (Some [None; Some (fst image_shape); Some (snd image_shape); Some num_classes]) in
  let learning_rate := Placeholder "learning_rate" None in
  check_kitti_dataset data_dir ;;
  download_pretrained_vgg data_dir ;;
  let vgg_path := os_path_join data_dir "vgg" in
  let get_batches_fn :=
    gen_batch_function (os_path_join data_dir "data_road/training") image_shape in
  handles <- load_vgg vgg_path ;;
  let '(img_input, keep_prob, layer3, layer4, layer7) := handles in
  model_out <- build (layers layer3 layer4 layer7 num_classes) ;;
  let '(logits, train_op, cross_entropy_loss) :=
    optimize model_out correct_label learning_rate num_classes in
  sess_run_init ;;
  train_nn NUM_EPOCHS BATCH_SIZE get_batches_fn train_op cross_entropy_loss img_input
           correct_label keep_prob learning_rate ;;
  save_inference_samples runs_dir data_dir image_shape logits keep_prob img_input.

(** The statements of [run] up to the return of [train_nn] (lines 143-179),
    with the handles that line 182 passes on. *)
Definition training_phase : M (tensor * tensor * tensor) :=
  let num_classes := 2 in
  let image_shape := (160, 576) in
  let data_dir := "./data" in
  let correct_label :=
    Placeholder "correct_label"
      (Some [None; Some (fst image_shape); Some (snd image_shape); Some num_classes]) in
  let learning_rate := Placeholder "learning_rate" None in
  check_kitti_dataset data_dir ;;
  download_pretrained_vgg data_dir ;;
  let vgg_path := os_path_join data_dir "vgg" in
  let get_batches_fn :=
    gen_batch_function (os_path_join data_dir "data_road/training") image_shape in
  handles <- load_vgg vgg_path ;;
  let '(img_input, keep_prob, layer3, layer4, layer7) := handles in
  model_out <- build (layers layer3 layer4 layer7 num_classes) ;;
  let '(logits, train_op, cross_entropy_loss) :=
    optimize model_out correct_label learning_rate num_classes in
  sess_run_init ;;
  train_nn NUM_EPOCHS BATCH_SIZE get_batches_fn train_op cross_entropy_loss img_input
           correct_label keep_prob learning_rate ;;
  ret (logits, keep_prob, img_input).

(** Line 182 on the handles of the training phase. *)
Definition inference_phase (handles : tensor * tensor * tensor) : M unit :=
  let '(logits, keep_prob, img_input) := handles in
  save_inference_samples "./runs" "./data" (160, 576) logits keep_prob img_input.

End Script.

Arguments Returned {P A} a.
Arguments Raised {P A} e.

(** ** A small concrete platform

    Images are numbers, the session state counts the optimization steps it
    has applied, and a step fails on a batch that holds a negative image.
    The random generator is a linear congruential one. *)

Module Toy.

Record toy_env : Type := { dataset : option (list (Z * bool)); seed : Z }.

Definition next_seed (s : Z) : Z := (s * 1103515245 + 12345) mod 2147483648.

Definition toy_randbelow (n : nat) (e : toy_env) : nat * toy_env :=
  (Z.to_nat ((seed e / 65536) mod Z.of_nat n),
   {| dataset := dataset e; seed := next_seed (seed e) |}).

Definition toy_step (loss : tensor) (op : operation) (fd : feed_dict Z bool) (s : Z)
  : string + (Z * Z) :=
  match fd with
  | (_, FImages X) :: _ =>
      if forallb (fun x => 0 <=? x) X
      then inr (fold_right Z.add 0 X + s, s + 1)
      else inl "shape mismatch"
  | _ => inl "missing feed"
  end.

Definition vgg_tensor (name : string) : tensor :=
  if String.eqb name "image_input:0" then Placeholder name (Some [None; None; None; Some 3])
  else if String.eqb name "keep_prob:0" then Placeholder name None
  else if String.eqb name "layer3_out:0" then Placeholder name (Some [None; None; None; Some 256])
  else if String.eqb name "layer4_out:0" then Placeholder name (Some [None; None; None; Some 512])
  else Placeholder name (Some [None; None; None; Some 4096]).

(** A step that never fails. *)
Definition steady_step (loss : tensor) (op : operation) (fd : feed_dict Z bool) (s : Z)
  : string + (Z * Z) :=
  inr (match fd with
       | (_, FImages X) :: _ => fold_right Z.add 0 X + s
       | _ => s
       end, s + 1).

Definition platform_with
           (step : tensor -> operation -> feed_dict Z bool -> Z -> string + (Z * Z))
  : Platform := {|
  Err := string;
  Loss := Z;
  loss_zero := 0;
  loss_add := Z.add;
  Image := Z;
  Label := bool;
  Scores := Z;
  Sess := Z;
  Env := toy_env;
  session_run_step := step;
  session_run_init := fun _ => inr 0;
  session_evaluate := fun _ _ s => inr s;
  saved_model_loader_load := fun _ _ _ s => inr s;
  graph_get_tensor_by_name := fun name _ => inr (vgg_tensor name);
  graph_error := "graph construction failed";
  test_for_kitti_dataset := fun _ e =>
    match dataset e with
    | Some _ => None
    | None => Some "Kitti dataset not found"
    end;
  maybe_download_pretrained_vgg := fun _ e => inr e;
  training_samples := fun _ _ e =>
    match dataset e with
    | Some l => inr l
    | None => inl "training folder not found"
    end;
  batch_size_error := fun _ => "batch size below 1";
  randbelow := toy_randbelow;
  test_images := fun _ _ _ => inr [("um_000000.png", 7); ("um_000001.png", 9)];
  make_output_dir := fun runs_dir e => inr (String.append runs_dir "/1", e);
  overlay := Z.add;
  write_image := fun _ _ _ e => inr e;
  inference_keep_prob := 1%Q
|}.

#[export] Instance platform : Platform := platform_with toy_step.

Definition steady : Platform := platform_with steady_step.

Definition steady_world : @World steady :=
  @Build_World steady {| dataset := None; seed := 42 |} 0.

(** A generator that yields the same two batches at every call. *)
Definition two_batches : @batch_function steady :=
  fun _ e =>
    (@Yield steady [1; 2] [true; true] (@Yield steady [3; 4] [true; true] (@Stop steady)), e).

(** Four solid-colour images, all labelled road. *)
Definition four_samples : list (Z * bool) := [(1, true); (2, true); (3, true); (4, true)].

Definition world0 : World :=
  {| env := {| dataset := Some four_samples; seed := 42 |}; sess := 0 |}.

(** A data set whose third image makes the optimization step fail. *)
Definition bad_samples : list (Z * bool) := [(1, true); (2, true); (-3, true); (4, true)].

Definition world_bad : World :=
  {| env := {| dataset := Some bad_samples; seed := 42 |}; sess := 0 |}.

Definition world_missing : World :=
  {| env := {| dataset := None; seed := 42 |}; sess := 0 |}.

Definition toy_batches : batch_function :=
  gen_batch_function "./data/data_road/training" (160, 576).

Definition h_train_op : operation :=
  Minimize "fcn_train_op" (Placeholder "lr" None) (Placeholder "loss" (Some [])).
Definition h_loss : tensor := Placeholder "loss" (Some []).
Definition h_input : tensor := Placeholder "image_input:0" (Some [None; None; None; Some 3]).
Definition h_label : tensor :=
  Placeholder "correct_label" (Some [None; Some 160; Some 576; Some 2]).
Definition h_keep : tensor := Placeholder "keep_prob:0" None.
Definition h_lr : tensor := Placeholder "lr" None.

Definition toy_train (epochs batch_size : Z) : M unit :=
  train_nn epochs batch_size toy_batches h_train_op h_loss h_input h_label h_keep h_lr.

End Toy.

(** * Vocabulary of the properties *)

Section Vocabulary.

Context {P : Platform}.

Definition batch : Type := (list Image * list Label)%type.

(** The batches a generator yields before it stops or raises. *)
Fixpoint yields (gen : batches) : list batch :=
  match gen with
  | Stop => []
  | Yield X_batch y_batch next => (X_batch, y_batch) :: yields next
  | Throw _ => []
  end.

(** The samples of the yielded batches, image with label, in order. *)
Definition samples_of (gen : batches) : list (Image * Label) :=
  flat_map (fun b : batch => combine (fst b) (snd b)) (yields gen).

(** The total number of samples over the yielded batches. *)
Definition sample_count (gen : batches) : nat :=
  list_sum (map (fun b : batch => List.length (fst b)) (yields gen)).

Fixpoint no_throw (gen : batches) : Prop :=
  match gen with
  | Stop => True
  | Yield _ _ next => no_throw next
  | Throw _ => False
  end.

(** A property of every event a computation produces. *)
Definition every (Q : event -> Prop) {A} (m : M A) : Prop :=
  forall w, Forall Q (trace (m w)).

(** A computation that leaves the session as it found it, with a property
    of its events that may depend on that session. *)
Definition frames (Q : Sess -> event -> Prop) {A} (m : M A) : Prop :=
  forall w, sess (final (m w)) = sess w /\ Forall (Q (sess w)) (trace (m w)).

(** A computation that leaves the environment as it found it. *)
Definition keeps_env {A} (m : M A) : Prop :=
  forall w, env (final (m w)) = env w.

(** The error of a failed optimization step. *)
Definition failure (ev : event) : option Err :=
  match ev with
  | TrainStep _ (inl e) => Some e
  | _ => None
  end.

Definition clean (t : list event) : Prop := Forall (fun ev => failure ev = None) t.

(** Either no step failed, or the failed step is the last event and its
    error is the result. *)
Definition fail_stop {A} (o : result A * World * list event) : Prop :=
  clean (trace o) \/
  exists pre fd e,
    trace o = pre ++ [TrainStep fd (inl e)] /\ clean pre /\ outcome o = Raised e.

(** The sum of the losses of the steps, accumulated from [start] in the
    order of the steps. *)
Definition cumulative_loss (start : Loss) (steps : list (batch * Loss)) : Loss :=
  fold_left loss_add (map snd steps) start.

Definition reports_nothing (t : list event) : Prop :=
  Forall (fun ev => match ev with Print _ => False | _ => True end) t.

(** The batch sizes of the calls of the batch generator, in order. *)
Definition generator_calls (t : list event) : list Z :=
  flat_map (fun ev => match ev with GetBatches b => [b] | _ => [] end) t.

Definition is_train_step (ev : event) : bool :=
  match ev with TrainStep _ _ => true | _ => false end.

Definition is_loss_line (ev : event) : bool :=
  match ev with Print (LossLine _) => true | _ => false end.

Definition is_training (ev : event) : bool :=
  match ev with
  | GetBatches _ | TrainStep _ _ | Print _ => true
  | _ => false
  end.

(** The events of the inference phase: the forward passes evaluate
    [logits] in session [s]; nothing trains, initializes or loads. *)
Definition inference_event (logits : tensor) (s : Sess) (ev : event) : Prop :=
  match ev with
  | MakeOutputDir _ | WriteImage _ _ => True
  | Evaluate t fd r => t = logits /\ r = session_evaluate logits fd s
  | _ => False
  end.

Section Handles.

Variables (batch_size : Z) (train_op : operation)
          (cross_entropy_loss input_image correct_label keep_prob learning_rate : tensor).

(** An optimization step is fed the dict display of lines 131-132 for some
    batch: the learning rate gets 0.001 and, when it is another tensor than
    the learning rate, the keep probability gets 0.5. *)
Definition feeds_constants (ev : event) : Prop :=
  match ev with
  | TrainStep fd _ =>
      (exists X y, fd = step_feed input_image correct_label keep_prob learning_rate X y)
      /\ dict_get fd learning_rate = Some (FScalar 0.001%Q)
      /\ (keep_prob <> learning_rate -> dict_get fd keep_prob = Some (FScalar 0.5%Q))
  | _ => True
  end.

(** A successful optimization step on a batch, with the loss it returned. *)
Definition ok_step (s : batch * Loss) : event :=
  TrainStep (step_feed input_image correct_label keep_prob learning_rate
                       (fst (fst s)) (snd (fst s)))
            (inr (snd s)).

(** What a completed epoch does: one call of the generator, its steps, and
    one report of the epoch number and of the loss summed over its steps. *)
Definition epoch_events (epoch : Z) (steps : list (batch * Loss)) : list event :=
  GetBatches batch_size :: map ok_step steps ++
  [ Print (EpochLine (epoch + 1)); Print (LossLine (cumulative_loss loss_zero steps));
    Print BlankLine ].

Fixpoint epochs_events (first : Z) (segs : list (list (batch * Loss))) : list event :=
  match segs with
  | [] => []
  | steps :: segs' => epoch_events first steps ++ epochs_events (first + 1) segs'
  end.

(** The engine performs every step it is asked for. *)
Definition engine_total : Prop :=
  forall fd s, exists l s', session_run_step cross_entropy_loss train_op fd s = inr (l, s').

End Handles.

End Vocabulary.

(** The skip connections of [layers]. *)

(** The extent a stride-2 SAME transposed convolution produces. *)
Definition twice (d : dim) : dim :=
  match d with
  | Some n => Some (n * 2)
  | None => None
  end.

Definition at_least_one (d : dim) : Prop :=
  match d with
  | Some n => 1 <= n
  | None => True
  end.

(** The two operands of an addition have the same static shape. *)
Definition same_shapes (p : tensor * tensor) : Prop :=
  get_shape (fst p) = get_shape (snd p).

(** Each skip source has the batch extent of the deep feature map and
    twice the height and width of the tensor upsampled into it. *)
Definition doubling (n3 h3 w3 n4 h4 w4 n7 h7 w7 : dim) : Prop :=
  n4 = n7 /\ h4 = twice h7 /\ w4 = twice w7 /\ n3 = n7 /\ h3 = twice h4 /\ w3 = twice w4.

(** * Further vocabulary *)

Section TrainingVocabulary.

Context {P : Platform}.

(** The exception a generator ends in, if any. *)
Fixpoint thrown (gen : batches) : option Err :=
  match gen with
  | Stop => None
  | Yield _ _ next => thrown next
  | Throw e => Some e
  end.

(** The numbers of the printed "EPOCH" lines, in order. *)
Definition epoch_numbers (t : list event) : list Z :=
  flat_map (fun ev => match ev with Print (EpochLine n) => [n] | _ => [] end) t.

(** The generators of [n] successive calls of [get_batches_fn], each call
    on the environment the previous one left, with the last environment. *)
Fixpoint epoch_generators (get_batches_fn : batch_function) (batch_size : Z)
         (n : nat) (e : Env) : list batches * Env :=
  match n with
  | O => ([], e)
  | S n' =>
      match get_batches_fn batch_size e with
      | (gen, e') =>
          match epoch_generators get_batches_fn batch_size n' e' with
          | (gens, e'') => (gen :: gens, e'')
          end
      end
  end.

Definition is_inference (ev : event) : bool :=
  match ev with
  | MakeOutputDir _ | Evaluate _ _ _ | WriteImage _ _ => true
  | _ => false
  end.

(** The tensor names [load_vgg] looks up (lines 35-39). *)
Definition vgg_tensor_names : list string :=
  [ "image_input:0"; "keep_prob:0"; "layer3_out:0"; "layer4_out:0"; "layer7_out:0" ].

(** What [run] does before the training loop starts (lines 151-174). *)
Definition run_preamble : list event :=
  [ CheckDataset "./data"; DownloadVgg "./data"; LoadModel ["vgg16"] "./data/vgg";
    InitVariables ].

(** The feed dictionaries of the optimization steps, in order. *)
Definition fed_dicts (t : list event) : list feed :=
  flat_map (fun ev => match ev with TrainStep fd _ => [fd] | _ => [] end) t.

(** The losses the optimization steps returned, in order. *)
Definition step_losses (t : list event) : list Loss :=
  flat_map (fun ev => match ev with TrainStep _ (inr l) => [l] | _ => [] end) t.

(** The loss values printed, in order. *)
Definition loss_lines (t : list event) : list Loss :=
  flat_map (fun ev => match ev with Print (LossLine l) => [l] | _ => [] end) t.

(** The orders of [n] successive shuffles of [l], each drawn from the state
    of the random generator the previous one left, with the last state. *)
Fixpoint successive_shuffles {A} (l : list A) (n : nat) (e : Env) : list (list A) * Env :=
  match n with
  | O => ([], e)
  | S n' =>
      match shuffle (List.length l) l e with
      | (order, e') =>
          match successive_shuffles l n' e' with
          | (orders, e'') => (order :: orders, e'')
          end
      end
  end.

(** The (image-batch, label-batch) pairs of an order cut into batches. *)
Definition batches_of (b : nat) (order : list (Image * Label)) : list batch :=
  map (fun c => (map fst c, map snd c)) (chunks b order).

End TrainingVocabulary.

(** A dimension multiplied by a factor. *)
Definition times (k : Z) (d : dim) : dim :=
  match d with
  | Some n => Some (n * k)
  | None => None
  end.

(** A platform with another graph behind [get_tensor_by_name]. *)
Definition with_graph (P : Platform)
           (lookup : string -> @Sess P -> @Err P + tensor) : Platform := {|
  Err := @Err P;
  Loss := @Loss P;
  loss_zero := @loss_zero P;
  loss_add := @loss_add P;
  Image := @Image P;
  Label := @Label P;
  Scores := @Scores P;
  Sess := @Sess P;
  Env := @Env P;
  session_run_step := @session_run_step P;
  session_run_init := @session_run_init P;
  session_evaluate := @session_evaluate P;
  saved_model_loader_load := @saved_model_loader_load P;
  graph_get_tensor_by_name := lookup;
  graph_error := @graph_error P;
  test_for_kitti_dataset := @test_for_kitti_dataset P;
  maybe_download_pretrained_vgg := @maybe_download_pretrained_vgg P;
  training_samples := @training_samples P;
  batch_size_error := @batch_size_error P;
  randbelow := @randbelow P;
  test_images := @test_images P;
  make_output_dir := @make_output_dir P;
  overlay := @overlay P;
  write_image := @write_image P;
  inference_keep_prob := @inference_keep_prob P
|}.

(** Further concrete inputs. *)
Module Cases.

(** A generator that yields one batch and then raises. *)
Definition broken_batches : @batch_function Toy.steady :=
  fun _ e => (@Yield Toy.steady [1] [true] (@Throw Toy.steady "disk error"), e).

(** A generator over an empty training set. *)
Definition no_batches : @batch_function Toy.platform :=
  fun _ e => (@Stop Toy.platform, e).

(** A loaded graph whose feature maps are those of a 160 x 200 image. *)
Definition narrow_tensor (name : string) : tensor :=
  if String.eqb name "layer3_out:0"
  then Placeholder name (Some [Some 1; Some 20; Some 25; Some 256])
  else if String.eqb name "layer4_out:0"
  then Placeholder name (Some [Some 1; Some 10; Some 13; Some 512])
  else if String.eqb name "layer7_out:0"
  then Placeholder name (Some [Some 1; Some 5; Some 7; Some 4096])
  else Toy.vgg_tensor name.

Definition narrow : Platform :=
  with_graph Toy.platform (fun name _ => inr (narrow_tensor name)).

Definition narrow_world : @World narrow :=
  @Build_World narrow {| Toy.dataset := Some Toy.four_samples; Toy.seed := 42 |} 0.

(** A loaded graph without the tensor "layer7_out:0". *)
Definition headless : Platform :=
  with_graph Toy.platform
             (fun name _ => if String.eqb name "layer7_out:0"
                            then inl "KeyError: layer7_out:0"
                            else inr (Toy.vgg_tensor name)).

Definition headless_world : @World headless :=
  @Build_World headless {| Toy.dataset := Some Toy.four_samples; Toy.seed := 42 |} 0.

End Cases.

(** * Properties *)

Section Proofs.

Context {P : Platform}.

(** ** Reasoning about computations *)

Lemma bind_eq {A B} (m : M A) (f : A -> M B) (w : World) :
  bind m f w =
  match outcome (m w) with
  | Returned a =>
      let o := f a (final (m w)) in
      (outcome o, final o, trace (m w) ++ trace o)
  | Raised e => (Raised e, final (m w), trace (m w))
  end.
Proof.
  unfold bind, outcome, final, trace.
  destruct (m w) as [[[a | e] w1] t1]; simpl; [ | reflexivity ].
  destruct (f a w1) as [[r w2] t2]; reflexivity.
Qed.

Lemma bind_returned {A B} (m : M A) (f : A -> M B) w a w1 t1 :
  m w = (Returned a, w1, t1) ->
  bind m f w = (outcome (f a w1), final (f a w1), t1 ++ trace (f a w1)).
Proof. intros H. rewrite bind_eq, H. reflexivity. Qed.

Lemma bind_raised {A B} (m : M A) (f : A -> M B) w e w1 t1 :
  m w = (Raised e, w1, t1) -> bind m f w = (Raised e, w1, t1).
Proof. intros H. rewrite bind_eq, H. reflexivity. Qed.

Lemma every_ret Q {A} (a : A) : every Q (ret a).
Proof. intros w. constructor. Qed.

Lemma every_raise Q {A} (e : Err) : every Q (@raise P A e).
Proof. intros w. constructor. Qed.

Lemma every_bind Q {A B} (m : M A) (f : A -> M B) :
  every Q m -> (forall a, every Q (f a)) -> every Q (bind m f).
Proof.
  intros Hm Hf w. rewrite bind_eq. specialize (Hm w).
  destruct (outcome (m w)) as [a | e]; simpl; [ | exact Hm ].
  unfold trace at 1; simpl. apply Forall_app. split; [ exact Hm | apply Hf ].
Qed.

Lemma every_for_each Q {A} (l : list A) (body : A -> M unit) :
  (forall x, In x l -> every Q (body x)) -> every Q (for_each l body).
Proof.
  intros Hb. induction l as [ | x l IH ]; simpl.
  - apply every_ret.
  - apply every_bind; [ apply Hb; now left | intros _; apply IH ].
    intros y Hy. apply Hb. now right.
Qed.

Lemma in_range (n x : Z) : In x (range n) -> 0 <= x < n.
Proof.
  unfold range. rewrite in_map_iff. intros [k [<- Hk]].
  apply in_seq in Hk. lia.
Qed.

Lemma every_build Q {A} (g : option A) : every Q (build g).
Proof. destruct g; [ apply every_ret | apply every_raise ]. Qed.

Lemma every_weaken (Q Q' : event -> Prop) {A} (m : M A) :
  (forall ev, Q ev -> Q' ev) -> every Q m -> every Q' m.
Proof. intros H Hm w. eapply Forall_impl; [ exact H | apply Hm ]. Qed.

(** A computation that produces one event, whatever its result. *)
Tactic Notation "one_event" reference(f) :=
  let w := fresh "w" in
  intros w; unfold f;
  repeat match goal with
         | |- context [match ?x with _ => _ end] => destruct x
         end;
  unfold trace; simpl; repeat constructor; auto.

Lemma every_print Q l : Q (Print l) -> every Q (print l).
Proof. intros H. one_event print. Qed.

Lemma every_sess_run_step Q loss op fd :
  (forall r, Q (TrainStep fd r)) -> every Q (sess_run_step loss op fd).
Proof. intros H. one_event sess_run_step. Qed.

Lemma every_sess_run_init Q : Q InitVariables -> every Q sess_run_init.
Proof. intros H w. unfold sess_run_init. destruct (session_run_init (sess w));
  unfold trace; simpl; repeat constructor; auto. Qed.

Lemma every_sess_evaluate Q t fd :
  (forall r, Q (Evaluate t fd r)) -> every Q (sess_evaluate t fd).
Proof. intros H. one_event sess_evaluate. Qed.

Lemma every_loader_load Q tags path : Q (LoadModel tags path) -> every Q (loader_load tags path).
Proof. intros H. one_event loader_load. Qed.

Lemma every_get_tensor_by_name Q name : every Q (get_tensor_by_name name).
Proof. one_event get_tensor_by_name. Qed.

Lemma every_check_kitti_dataset Q d : Q (CheckDataset d) -> every Q (check_kitti_dataset d).
Proof. intros H. one_event check_kitti_dataset. Qed.

Lemma every_download_pretrained_vgg Q d :
  Q (DownloadVgg d) -> every Q (download_pretrained_vgg d).
Proof. intros H. one_event download_pretrained_vgg. Qed.

Lemma every_call_batches Q f b : Q (GetBatches b) -> every Q (call_batches f b).
Proof. intros H. one_event call_batches. Qed.

Lemma every_make_dir Q d : Q (MakeOutputDir d) -> every Q (make_dir d).
Proof. intros H. one_event make_dir. Qed.

Lemma every_list_test_images Q d s : every Q (list_test_images d s).
Proof. one_event list_test_images. Qed.

Lemma every_save_image Q d n i : Q (WriteImage d n) -> every Q (save_image d n i).
Proof. intros H. one_event save_image. Qed.


(** ** What the training loop feeds and reports *)

Section TrainingEvents.

Variables (epochs batch_size : Z) (get_batches_fn : batch_function)
          (train_op : operation)
          (cross_entropy_loss input_image correct_label keep_prob learning_rate : tensor).

Lemma every_train_batches Q gen :
  (forall X y r,
      Q (TrainStep (step_feed input_image correct_label keep_prob learning_rate X y) r)) ->
  forall total,
    every Q (train_batches train_op cross_entropy_loss input_image correct_label
                           keep_prob learning_rate gen total).
Proof.
  intros HQ. induction gen as [ | X y next IH | e ]; intros total; simpl.
  - apply every_ret.
  - apply every_bind; [ apply every_sess_run_step; apply HQ | intros l; apply IH ].
  - apply every_raise.
Qed.

Lemma every_train_epoch Q epoch :
  Q (GetBatches batch_size) ->
  (forall X y r,
      Q (TrainStep (step_feed input_image correct_label keep_prob learning_rate X y) r)) ->
  (forall total, Q (Print (LossLine total))) ->
  Q (Print (EpochLine (epoch + 1))) ->
  Q (Print BlankLine) ->
  every Q (train_epoch batch_size get_batches_fn train_op cross_entropy_loss input_image
                       correct_label keep_prob learning_rate epoch).
Proof.
  intros Hg Hs Hl He Hb. unfold train_epoch.
  apply every_bind; [ now apply every_call_batches | intros gen ].
  apply every_bind; [ now apply every_train_batches | intros total ].
  apply every_bind; [ now apply every_print | intros _ ].
  apply every_bind; [ apply every_print; apply Hl | intros _ ].
  now apply every_print.
Qed.

Lemma every_train_nn Q :
  Q (GetBatches batch_size) ->
  (forall X y r,
      Q (TrainStep (step_feed input_image correct_label keep_prob learning_rate X y) r)) ->
  (forall total, Q (Print (LossLine total))) ->
  (forall n, 1 <= n <= epochs -> Q (Print (EpochLine n))) ->
  Q (Print BlankLine) ->
  every Q (train_nn epochs batch_size get_batches_fn train_op cross_entropy_loss input_image
                    correct_label keep_prob learning_rate).
Proof.
  intros Hg Hs Hl He Hb. unfold train_nn.
  apply every_for_each. intros epoch Hin. apply in_range in Hin.
  apply every_train_epoch; auto. apply He. lia.
Qed.

End TrainingEvents.

Lemma every_load_vgg Q path :
  (forall tags, Q (LoadModel tags path)) -> every Q (load_vgg path).
Proof.
  intros H. unfold load_vgg. cbv zeta.
  apply every_bind; [ apply every_loader_load, H | intros _ ].
  repeat (apply every_bind; [ apply every_get_tensor_by_name | intros ? ]).
  apply every_ret.
Qed.

Lemma every_save_inference_samples Q runs_dir data_dir image_shape logits keep_prob input_image :
  Q (MakeOutputDir runs_dir) ->
  (forall fd r, Q (Evaluate logits fd r)) ->
  (forall d n, Q (WriteImage d n)) ->
  every Q (save_inference_samples runs_dir data_dir image_shape logits keep_prob input_image).
Proof.
  intros Hm He Hw. unfold save_inference_samples.
  apply every_bind; [ now apply every_make_dir | intros d ].
  apply every_bind; [ apply every_list_test_images | intros images ].
  apply every_for_each. intros [name image] _.
  apply every_bind; [ apply every_sess_evaluate; intros; apply He | intros sc ].
  apply every_save_image, Hw.
Qed.

(** ** Failures of the optimization step *)

Lemma fail_stop_clean {A} (m : M A) :
  every (fun ev => failure ev = None) m -> forall w, fail_stop (m w).
Proof. intros H w. left. apply H. Qed.

Lemma fail_stop_bind {A B} (m : M A) (f : A -> M B) :
  (forall w, fail_stop (m w)) -> (forall a w, fail_stop (f a w)) ->
  forall w, fail_stop (bind m f w).
Proof.
  intros Hm Hf w. specialize (Hm w).
  destruct (m w) as [[[a | e] w1] t1] eqn:E.
  - rewrite (bind_returned _ _ _ _ _ _ E).
    destruct Hm as [Hc | (pre & fd & e & _ & _ & Hr)]; [ | discriminate Hr ].
    unfold trace in Hc; simpl in Hc.
    destruct (Hf a w1) as [Hc2 | (pre & fd & e & Ht & Hp & Hr)].
    + left. unfold trace; simpl. apply Forall_app. split; assumption.
    + right. exists (t1 ++ pre), fd, e. unfold trace, outcome in *; simpl in *.
      rewrite Ht, app_assoc. repeat split; [ | exact Hr ].
      apply Forall_app. split; assumption.
  - rewrite (bind_raised _ _ _ _ _ _ E).
    destruct Hm as [Hc | (pre & fd & e' & Ht & Hp & Hr)]; [ left; exact Hc | right ].
    exists pre, fd, e'. unfold trace, outcome in *; simpl in *.
    repeat split; try assumption. congruence.
Qed.

Lemma fail_stop_for_each {A} (l : list A) (body : A -> M unit) :
  (forall x w, fail_stop (body x w)) -> forall w, fail_stop (for_each l body w).
Proof.
  intros Hb. induction l as [ | x l IH ]; simpl.
  - apply fail_stop_clean, every_ret.
  - apply fail_stop_bind; [ apply Hb | intros _; exact IH ].
Qed.

Lemma fail_stop_sess_run_step loss op fd w : fail_stop (sess_run_step loss op fd w).
Proof.
  unfold sess_run_step. destruct (session_run_step loss op fd (sess w)) as [e | [l s']].
  - right. exists [], fd, e. repeat split. constructor.
  - left. repeat constructor.
Qed.

Lemma fail_stop_train_batches train_op loss input_image correct_label keep_prob learning_rate gen :
  forall total w,
    fail_stop (train_batches train_op loss input_image correct_label keep_prob learning_rate
                             gen total w).
Proof.
  induction gen as [ | X y next IH | e ]; intros total; simpl.
  - apply fail_stop_clean, every_ret.
  - apply fail_stop_bind; [ apply fail_stop_sess_run_step | intros l; apply IH ].
  - apply fail_stop_clean, every_raise.
Qed.

Lemma fail_stop_train_nn epochs batch_size get_batches_fn train_op loss input_image
      correct_label keep_prob learning_rate w :
  fail_stop (train_nn epochs batch_size get_batches_fn train_op loss input_image
                      correct_label keep_prob learning_rate w).
Proof.
  revert w. unfold train_nn. apply fail_stop_for_each. intros epoch. unfold train_epoch.
  apply fail_stop_bind; [ apply fail_stop_clean, every_call_batches; reflexivity | intros gen ].
  apply fail_stop_bind; [ apply fail_stop_train_batches | intros total ].
  apply fail_stop_clean.
  repeat (apply every_bind; [ apply every_print; reflexivity | intros _ ]).
  apply every_print; reflexivity.
Qed.

Lemma fail_stop_run w : fail_stop (run w).
Proof.
  revert w. unfold run. cbv zeta.
  apply fail_stop_bind;
    [ apply fail_stop_clean, every_check_kitti_dataset; reflexivity | intros _ ].
  apply fail_stop_bind;
    [ apply fail_stop_clean, every_download_pretrained_vgg; reflexivity | intros _ ].
  apply fail_stop_bind;
    [ apply fail_stop_clean, every_load_vgg; reflexivity | intros handles ].
  destruct handles as [[[[img_input keep_prob] layer3] layer4] layer7].
  apply fail_stop_bind; [ apply fail_stop_clean, every_build | intros model_out ].
  unfold optimize. cbv zeta.
  apply fail_stop_bind;
    [ apply fail_stop_clean, every_sess_run_init; reflexivity | intros _ ].
  apply fail_stop_bind; [ apply fail_stop_train_nn | intros _ ].
  apply fail_stop_clean, every_save_inference_samples; reflexivity.
Qed.

(** A failed step inside a fail-stop trace is its last event. *)
Lemma fail_stop_last {A} (o : result A * World * list event) pre fd e post :
  fail_stop o ->
  trace o = pre ++ TrainStep fd (inl e) :: post ->
  post = [] /\ outcome o = Raised e /\ clean pre.
Proof.
  intros [Hc | (pre' & fd' & e' & Ht & Hp & Hr)] Heq.
  - exfalso. unfold clean in Hc. rewrite Heq in Hc.
    apply Forall_app in Hc. destruct Hc as [_ Hc]. inversion Hc as [ | ? ? Hf _ ].
    discriminate Hf.
  - rewrite Ht in Heq. destruct post as [ | z post' ] using rev_ind.
    + apply app_inj_tail in Heq. destruct Heq as [-> Heq].
      inversion Heq; subst. auto.
    + clear IHpost'. exfalso.
      change (pre ++ TrainStep fd (inl e) :: post' ++ [z])
        with (pre ++ (TrainStep fd (inl e) :: post') ++ [z]) in Heq.
      rewrite app_assoc in Heq. apply app_inj_tail in Heq. destruct Heq as [-> _].
      unfold clean in Hp. apply Forall_app in Hp. destruct Hp as [_ Hp].
      inversion Hp as [ | ? ? Hf _ ]. discriminate Hf.
Qed.

(** C5. If an optimization step raises an error, the error propagates out
    of [train_nn] and out of [run]: the failed step is the last thing the
    run does (no retry, no later step) and its error is the result. *)
Theorem failed_step_is_fatal :
  (forall epochs batch_size get_batches_fn train_op cross_entropy_loss
          input_image correct_label keep_prob learning_rate w pre fd e post,
      trace (train_nn epochs batch_size get_batches_fn train_op cross_entropy_loss
                      input_image correct_label keep_prob learning_rate w)
        = pre ++ TrainStep fd (inl e) :: post ->
      post = []
      /\ outcome (train_nn epochs batch_size get_batches_fn train_op cross_entropy_loss
                           input_image correct_label keep_prob learning_rate w) = Raised e
      /\ clean pre)
  /\ (forall w pre fd e post,
        trace (run w) = pre ++ TrainStep fd (inl e) :: post ->
        post = [] /\ outcome (run w) = Raised e /\ clean pre).
Proof.
  split; intros.
  - eapply fail_stop_last; [ apply fail_stop_train_nn | eassumption ].
  - eapply fail_stop_last; [ apply fail_stop_run | eassumption ].
Qed.

(** C10. With [epochs = 0] the training loop returns at once: it never
    calls the batch generator, performs no optimization step, prints no
    loss, and leaves the world, the model parameters in particular, as it
    was. *)
Theorem zero_epochs_do_nothing :
  forall batch_size get_batches_fn train_op cross_entropy_loss
         input_image correct_label keep_prob learning_rate w,
    let o := train_nn 0 batch_size get_batches_fn train_op cross_entropy_loss
                      input_image correct_label keep_prob learning_rate w in
    outcome o = Returned tt
    /\ trace o = []
    /\ generator_calls (trace o) = []
    /\ filter is_train_step (trace o) = []
    /\ filter is_loss_line (trace o) = []
    /\ final o = w
    /\ sess (final o) = sess w.
Proof.
  intros. unfold o, train_nn. change (range 0) with (@nil Z). cbn [for_each].
  unfold ret, outcome, trace, final. cbn [fst snd].
  repeat split; reflexivity.
Qed.

(** ** The shape of a training run *)

Section EpochStructure.

Variables (epochs batch_size : Z) (get_batches_fn : batch_function)
          (train_op : operation)
          (cross_entropy_loss input_image correct_label keep_prob learning_rate : tensor).

Let train_batches' := train_batches train_op cross_entropy_loss input_image correct_label
                                    keep_prob learning_rate.
Let train_epoch' := train_epoch batch_size get_batches_fn train_op cross_entropy_loss
                                input_image correct_label keep_prob learning_rate.

Lemma train_batches_structure gen :
  forall total w r w' t,
    train_batches' gen total w = (r, w', t) ->
    match r with
    | Returned l =>
        exists steps,
          t = map (ok_step input_image correct_label keep_prob learning_rate) steps
          /\ l = cumulative_loss total steps
    | Raised _ => reports_nothing t
    end.
Proof.
  unfold train_batches'.
  induction gen as [ | X y next IH | e ]; intros total w r w' t H; simpl in H.
  - inversion H; subst. exists []. split; reflexivity.
  - unfold bind, sess_run_step in H.
    destruct (session_run_step _ _ _ (sess w)) as [e | [l s']].
    + inversion H; subst. repeat constructor.
    + destruct (train_batches _ _ _ _ _ _ next _ _) as [[r2 w2] t2] eqn:E.
      inversion H; subst. apply IH in E. destruct r as [l' | e'].
      * destruct E as (steps & -> & ->). exists ((X, y, l) :: steps).
        split; reflexivity.
      * constructor; [ exact I | exact E ].
  - inversion H; subst. constructor.
Qed.

Lemma train_epoch_structure epoch w r w' t :
  train_epoch' epoch w = (r, w', t) ->
  match r with
  | Returned _ =>
      exists steps,
        t = epoch_events batch_size input_image correct_label keep_prob learning_rate
                         epoch steps
  | Raised _ => reports_nothing t
  end.
Proof.
  unfold train_epoch', train_epoch, bind at 1, call_batches.
  destruct (get_batches_fn batch_size (env w)) as [gen e'].
  unfold bind at 1.
  destruct (train_batches _ _ _ _ _ _ gen _ _) as [[r1 w1] t1] eqn:E.
  apply train_batches_structure in E. destruct r1 as [l | e].
  - destruct E as (steps & -> & ->). unfold bind, print. intros H.
    inversion H; subst. exists steps. reflexivity.
  - intros H. inversion H; subst. constructor; [ exact I | exact E ].
Qed.

Lemma epochs_structure n :
  forall first w r w' t,
    for_each (map Z.of_nat (seq first n)) train_epoch' w = (r, w', t) ->
    exists segs rest,
      t = epochs_events batch_size input_image correct_label keep_prob learning_rate
                        (Z.of_nat first) segs ++ rest
      /\ reports_nothing rest
      /\ match r with
         | Returned _ => List.length segs = n /\ rest = []
         | Raised _ => (List.length segs < n)%nat
         end.
Proof.
  induction n as [ | n IH ]; intros first w r w' t H; simpl in H.
  - inversion H; subst. exists [], []. repeat split. constructor.
  - unfold bind in H.
    destruct (train_epoch' (Z.of_nat first) w) as [[r1 w1] t1] eqn:E.
    apply train_epoch_structure in E. destruct r1 as [[] | e].
    + destruct E as (steps & ->).
      destruct (for_each _ train_epoch' w1) as [[r2 w2] t2] eqn:E2.
      inversion H; subst. apply IH in E2. destruct E2 as (segs & rest & -> & Hr & Ho).
      exists (steps :: segs), rest. cbn [epochs_events].
      replace (epochs_events _ _ _ _ _ (Z.of_nat first + 1) segs)
        with (epochs_events batch_size input_image correct_label keep_prob learning_rate
                            (Z.of_nat (S first)) segs)
        by (f_equal; lia).
      rewrite <- (app_assoc (epoch_events _ _ _ _ _ (Z.of_nat first) steps)).
      split; [ reflexivity | split; [ exact Hr | ] ].
      destruct r; cbn [List.length]; [ destruct Ho; split; congruence | lia ].
    + inversion H; subst. exists [], t. repeat split; [ exact E | simpl; lia ].
Qed.

Lemma train_nn_structure w :
  let o := train_nn epochs batch_size get_batches_fn train_op cross_entropy_loss
                    input_image correct_label keep_prob learning_rate w in
  exists segs rest,
    trace o = epochs_events batch_size input_image correct_label keep_prob learning_rate
                            0 segs ++ rest
    /\ reports_nothing rest
    /\ match outcome o with
       | Returned _ => List.length segs = Z.to_nat epochs /\ rest = []
       | Raised _ => (List.length segs < Z.to_nat epochs)%nat
       end.
Proof.
  cbv zeta. unfold train_nn, range.
  destruct (for_each _ _ w) as [[r w'] t] eqn:E.
  apply (epochs_structure (Z.to_nat epochs) 0%nat) in E. exact E.
Qed.

Lemma generator_calls_app t1 t2 :
  generator_calls (t1 ++ t2) = generator_calls t1 ++ generator_calls t2.
Proof. apply flat_map_app. Qed.

Lemma generator_calls_steps steps :
  generator_calls (map (ok_step input_image correct_label keep_prob learning_rate) steps)
  = [].
Proof. induction steps as [ | s steps IH ]; [ reflexivity | exact IH ]. Qed.

Lemma generator_calls_epochs segs :
  forall first,
    generator_calls (epochs_events batch_size input_image correct_label keep_prob
                                   learning_rate first segs)
    = repeat batch_size (List.length segs).
Proof.
  induction segs as [ | steps segs IH ]; intros first; [ reflexivity | ].
  cbn [epochs_events List.length repeat]. rewrite generator_calls_app, IH.
  unfold epoch_events. change (GetBatches batch_size :: ?l) with ([GetBatches batch_size] ++ l).
  cbn [app generator_calls flat_map].
  fold (generator_calls
          (map (ok_step input_image correct_label keep_prob learning_rate) steps ++
           [Print (EpochLine (first + 1)); Print (LossLine (cumulative_loss loss_zero steps));
            Print BlankLine])).
  rewrite generator_calls_app, generator_calls_steps. reflexivity.
Qed.

Lemma train_batches_returns gen :
  engine_total train_op cross_entropy_loss -> no_throw gen ->
  forall total w, exists l w' t, train_batches' gen total w = (Returned l, w', t).
Proof.
  intros He. unfold train_batches'.
  induction gen as [ | X y next IH | e ]; intros Hn total w; simpl.
  - do 3 eexists. reflexivity.
  - unfold bind, sess_run_step.
    destruct (He (step_feed input_image correct_label keep_prob learning_rate X y) (sess w))
      as (l & s' & ->).
    destruct (IH Hn (loss_add total l) {| env := env w; sess := s' |}) as (l' & w' & t & ->).
    do 3 eexists. reflexivity.
  - destruct Hn.
Qed.

Lemma train_epoch_returns epoch w :
  engine_total train_op cross_entropy_loss -> (forall b e, no_throw (fst (get_batches_fn b e))) ->
  exists w' t, train_epoch' epoch w = (Returned tt, w', t).
Proof.
  intros He Hg. unfold train_epoch', train_epoch, bind at 1, call_batches.
  specialize (Hg batch_size (env w)).
  destruct (get_batches_fn batch_size (env w)) as [gen e']. simpl in Hg.
  unfold bind at 1.
  destruct (train_batches_returns gen He Hg loss_zero {| env := e'; sess := sess w |})
    as (l & w' & t & E).
  unfold train_batches' in E. rewrite E. do 2 eexists. reflexivity.
Qed.

Lemma train_nn_returns w :
  engine_total train_op cross_entropy_loss -> (forall b e, no_throw (fst (get_batches_fn b e))) ->
  outcome (train_nn epochs batch_size get_batches_fn train_op cross_entropy_loss
                    input_image correct_label keep_prob learning_rate w) = Returned tt.
Proof.
  intros He Hg. unfold train_nn. fold train_epoch'. revert w.
  induction (range epochs) as [ | epoch l IH ]; intros w; [ reflexivity | ].
  cbn [for_each]. unfold bind.
  destruct (train_epoch_returns epoch w He Hg) as (w' & t & ->).
  specialize (IH w'). destruct (for_each l train_epoch' w') as [[r w2] t2].
  exact IH.
Qed.

End EpochStructure.

(** C1. With [epochs = 1] and [batch_size = 2], a generator that yields
    exactly two batches and an engine that performs the two steps, the
    training loop returns after exactly two optimization steps, one per
    yielded batch, and one report of the loss. *)
Theorem one_epoch_two_batches :
  forall get_batches_fn train_op cross_entropy_loss
         input_image correct_label keep_prob learning_rate w X1 y1 X2 y2 e',
    get_batches_fn 2 (env w) = (Yield X1 y1 (Yield X2 y2 Stop), e') ->
    (forall X y s, In (X, y) [(X1, y1); (X2, y2)] ->
       exists l s',
         session_run_step cross_entropy_loss train_op
           (step_feed input_image correct_label keep_prob learning_rate X y) s
         = inr (l, s')) ->
    let o := train_nn 1 2 get_batches_fn train_op cross_entropy_loss
                      input_image correct_label keep_prob learning_rate w in
    outcome o = Returned tt
    /\ List.length (filter is_train_step (trace o)) = 2%nat
    /\ List.length (filter is_loss_line (trace o)) = 1%nat
    /\ exists l1 l2,
         trace o =
         [ GetBatches 2;
           TrainStep (step_feed input_image correct_label keep_prob learning_rate X1 y1)
                     (inr l1);
           TrainStep (step_feed input_image correct_label keep_prob learning_rate X2 y2)
                     (inr l2);
           Print (EpochLine 1);
           Print (LossLine (loss_add (loss_add loss_zero l1) l2));
           Print BlankLine ].
Proof.
  intros get_batches_fn train_op cross_entropy_loss input_image correct_label keep_prob
         learning_rate w X1 y1 X2 y2 e' Hg Hs o.
  assert (exists l1 l2 w',
             train_nn 1 2 get_batches_fn train_op cross_entropy_loss
                      input_image correct_label keep_prob learning_rate w
             = (Returned tt, w',
                [ GetBatches 2;
                  TrainStep (step_feed input_image correct_label keep_prob learning_rate X1 y1)
                            (inr l1);
                  TrainStep (step_feed input_image correct_label keep_prob learning_rate X2 y2)
                            (inr l2);
                  Print (EpochLine 1);
                  Print (LossLine (loss_add (loss_add loss_zero l1) l2));
                  Print BlankLine ])) as (l1 & l2 & w' & E).
  { destruct (Hs X1 y1 (sess w)) as (l1 & s1 & H1); [ now left | ].
    destruct (Hs X2 y2 s1) as (l2 & s2 & H2); [ right; now left | ].
    exists l1, l2, {| env := e'; sess := s2 |}.
    unfold train_nn. change (range 1) with [0]. cbn [for_each].
    unfold train_epoch, call_batches, bind. rewrite Hg.
    cbn [train_batches]. unfold bind, sess_run_step, print, ret.
    cbn [sess env]. rewrite H1. cbn [sess env]. rewrite H2. reflexivity. }
  unfold o. rewrite E. repeat split. exists l1, l2. reflexivity.
Qed.


(** ** Configuration checks and the inference phase of [run] *)

Lemma run_started w env' :
  test_for_kitti_dataset "./data" (env w) = None ->
  maybe_download_pretrained_vgg "./data" (env w) = inr env' ->
  exists r w' t,
    run w = (r, w', CheckDataset "./data" :: DownloadVgg "./data" :: t).
Proof.
  intros Hc Hd. unfold run. cbv zeta.
  unfold bind at 1, check_kitti_dataset. rewrite Hc.
  unfold bind at 1, download_pretrained_vgg. cbn [env sess]. rewrite Hd.
  match goal with
  | |- context [bind ?m ?f ?w0] => destruct (bind m f w0) as [[r w'] t]
  end.
  exists r, w', t. reflexivity.
Qed.

(** C6. In [run], the check of the data set and the download of the
    model come before anything of the training loop: a failed check, or a
    failed download, ends the run at once with the error of the check, and
    every event of the training loop is preceded by a passed check and a
    completed download. *)
Theorem configuration_errors_precede_training :
  (forall w e,
      test_for_kitti_dataset "./data" (env w) = Some e ->
      run w = (Raised e, w, [CheckDataset "./data"]))
  /\ (forall w e,
        test_for_kitti_dataset "./data" (env w) = None ->
        maybe_download_pretrained_vgg "./data" (env w) = inl e ->
        run w = (Raised e, w, [CheckDataset "./data"; DownloadVgg "./data"]))
  /\ (forall w pre ev post,
        trace (run w) = pre ++ ev :: post ->
        is_training ev = true ->
        test_for_kitti_dataset "./data" (env w) = None
        /\ (exists env', maybe_download_pretrained_vgg "./data" (env w) = inr env')
        /\ exists mid, pre = CheckDataset "./data" :: DownloadVgg "./data" :: mid).
Proof.
  assert (H1 : forall w e,
             test_for_kitti_dataset "./data" (env w) = Some e ->
             run w = (Raised e, w, [CheckDataset "./data"])).
  { intros w e Hc. unfold run. cbv zeta.
    unfold bind at 1, check_kitti_dataset. rewrite Hc. reflexivity. }
  assert (H2 : forall w e,
             test_for_kitti_dataset "./data" (env w) = None ->
             maybe_download_pretrained_vgg "./data" (env w) = inl e ->
             run w = (Raised e, w, [CheckDataset "./data"; DownloadVgg "./data"])).
  { intros w e Hc Hd. unfold run. cbv zeta.
    unfold bind at 1, check_kitti_dataset. rewrite Hc.
    unfold bind at 1, download_pretrained_vgg. cbn [env sess]. rewrite Hd. reflexivity. }
  split; [ exact H1 | split; [ exact H2 | ] ].
  intros w pre ev post Ht Hev.
  destruct (test_for_kitti_dataset "./data" (env w)) as [e | ] eqn:Hc.
  - rewrite (H1 w e Hc) in Ht. unfold trace in Ht; simpl in Ht.
    destruct pre as [ | x [ | y pre ] ]; inversion Ht; subst; discriminate Hev.
  - destruct (maybe_download_pretrained_vgg "./data" (env w)) as [e | env'] eqn:Hd.
    + rewrite (H2 w e Hc Hd) in Ht. unfold trace in Ht; simpl in Ht.
      destruct pre as [ | x [ | y [ | z pre ] ] ]; inversion Ht; subst; discriminate Hev.
    + destruct (run_started w env' Hc Hd) as (r & w' & t & E).
      rewrite E in Ht. unfold trace in Ht; simpl in Ht.
      split; [ reflexivity | split; [ now exists env' | ] ].
      destruct pre as [ | x [ | y pre ] ]; inversion Ht; subst;
        try discriminate Hev.
      exists pre. reflexivity.
Qed.

Lemma bind_assoc {A B C} (m : M A) (f : A -> M B) (g : B -> M C) w :
  bind (bind m f) g w = bind m (fun a => bind (f a) g) w.
Proof.
  unfold bind. destruct (m w) as [[[a | e] w1] t1]; [ | reflexivity ].
  destruct (f a w1) as [[[b | e] w2] t2]; [ | reflexivity ].
  destruct (g b w2) as [[r w3] t3]. rewrite app_assoc. reflexivity.
Qed.

Lemma bind_ext {A B} (m : M A) (f f' : A -> M B) w :
  (forall a w', f a w' = f' a w') -> bind m f w = bind m f' w.
Proof.
  intros H. unfold bind. destruct (m w) as [[[a | e] w1] t1]; [ | reflexivity ].
  rewrite H. reflexivity.
Qed.

Lemma bind_ret_l {A B} (a : A) (f : A -> M B) w : bind (ret a) f w = f a w.
Proof. unfold bind, ret. destruct (f a w) as [[r w'] t]. reflexivity. Qed.

Lemma run_phases w : run w = bind training_phase inference_phase w.
Proof.
  unfold run, training_phase. cbv zeta.
  rewrite bind_assoc. apply bind_ext. intros _ w1.
  rewrite bind_assoc. apply bind_ext. intros _ w2.
  rewrite bind_assoc. apply bind_ext. intros [[[[img_input keep_prob] layer3] layer4] layer7] w3.
  rewrite bind_assoc. apply bind_ext. intros model_out w4.
  unfold optimize. cbv zeta.
  rewrite bind_assoc. apply bind_ext. intros _ w5.
  rewrite bind_assoc. apply bind_ext. intros _ w6.
  rewrite bind_ret_l. reflexivity.
Qed.

Lemma frames_ret Q {A} (a : A) : frames Q (ret a).
Proof. intros w. split; [ reflexivity | constructor ]. Qed.

Lemma frames_bind Q {A B} (m : M A) (f : A -> M B) :
  frames Q m -> (forall a, frames Q (f a)) -> frames Q (bind m f).
Proof.
  intros Hm Hf w. destruct (Hm w) as [Hs Ht].
  destruct (m w) as [[[a | e] w1] t1] eqn:E.
  - rewrite (bind_returned _ _ _ _ _ _ E). destruct (Hf a w1) as [Hs2 Ht2].
    unfold final, trace in *; simpl in *. rewrite Hs in Hs2, Ht2.
    split; [ exact Hs2 | ]. apply Forall_app. split; assumption.
  - rewrite (bind_raised _ _ _ _ _ _ E). split; assumption.
Qed.

Lemma frames_for_each Q {A} (l : list A) (body : A -> M unit) :
  (forall x, frames Q (body x)) -> frames Q (for_each l body).
Proof.
  intros Hb. induction l as [ | x l IH ]; simpl.
  - apply frames_ret.
  - apply frames_bind; [ apply Hb | intros _; exact IH ].
Qed.

Lemma frames_save_inference_samples runs_dir data_dir image_shape logits keep_prob input_image :
  frames (inference_event logits)
         (save_inference_samples runs_dir data_dir image_shape logits keep_prob input_image).
Proof.
  unfold save_inference_samples.
  apply frames_bind.
  { intros w. unfold make_dir. destruct (make_output_dir runs_dir (env w)) as [e | [d e']];
      split; try reflexivity; repeat constructor. }
  intros output_dir. apply frames_bind.
  { intros w. unfold list_test_images. destruct (test_images _ _ _);
      split; try reflexivity; constructor. }
  intros images. apply frames_for_each. intros [name image]. apply frames_bind.
  { intros w. unfold sess_evaluate.
    destruct (session_evaluate logits _ (sess w)) as [e | v] eqn:E;
      (split; [ reflexivity | ]); repeat constructor; simpl; now rewrite E. }
  intros scores w. unfold save_image. destruct (write_image _ _ _ _);
    split; try reflexivity; repeat constructor.
Qed.

(** C7. [run] is its training phase followed by the inference phase; once
    [train_nn] has returned, the run only creates the output directory,
    evaluates [logits] and writes images: every forward pass is evaluated
    in the session state the training left, and that state is the one the
    run ends with. *)
Theorem inference_reads_trained_parameters :
  forall w,
    run w = bind training_phase inference_phase w
    /\ forall logits keep_prob img_input w1 t1,
         training_phase w = (Returned (logits, keep_prob, img_input), w1, t1) ->
         sess (final (run w)) = sess w1
         /\ exists t2,
              trace (run w) = t1 ++ t2
              /\ Forall (inference_event logits (sess w1)) t2.
Proof.
  intros w. split; [ apply run_phases | ].
  intros logits keep_prob img_input w1 t1 E.
  rewrite run_phases, (bind_returned _ _ _ _ _ _ E). unfold inference_phase.
  destruct (frames_save_inference_samples "./runs" "./data" (160, 576) logits keep_prob
              img_input w1) as [Hs Ht].
  split; [ exact Hs | ]. eexists. split; [ reflexivity | exact Ht ].
Qed.


(** ** The batch generator *)

Lemma remove_nth_perm {A} (l : list A) :
  forall i x r, remove_nth i l = Some (x, r) -> Permutation l (x :: r).
Proof.
  induction l as [ | a l IH ]; intros i x r H; simpl in H; [ discriminate | ].
  destruct i as [ | i ].
  - inversion H; subst. apply Permutation_refl.
  - destruct (remove_nth i l) as [[y r'] | ] eqn:E; [ | discriminate ].
    inversion H; subst. apply IH in E.
    eapply perm_trans; [ apply perm_skip, E | apply perm_swap ].
Qed.

Lemma shuffle_perm {A} n :
  forall (l : list A) e, Permutation (fst (shuffle n l e)) l.
Proof.
  induction n as [ | n IH ]; intros l e; simpl; [ apply Permutation_refl | ].
  destruct (randbelow (S n) e) as [i e'].
  destruct (remove_nth _ l) as [[x rest] | ] eqn:E; [ | apply Permutation_refl ].
  specialize (IH rest e'). destruct (shuffle n rest e') as [t e'']. simpl in *.
  apply remove_nth_perm in E. symmetry.
  eapply perm_trans; [ exact E | apply perm_skip; symmetry; exact IH ].
Qed.

Lemma firstn_then_firstn {A} n m :
  forall l : list A, firstn n l ++ firstn m (skipn n l) = firstn (n + m) l.
Proof.
  induction n as [ | n IH ]; intros l; [ reflexivity | ].
  destruct l as [ | a l ]; simpl.
  - now rewrite firstn_nil.
  - f_equal. apply IH.
Qed.

Lemma chunks_prefix {A} (b : nat) (l : list A) m :
  List.concat (map (fun k => firstn b (skipn (k * b)%nat l)) (seq 0 m)) = firstn (m * b) l.
Proof.
  induction m as [ | m IH ]; [ reflexivity | ].
  rewrite seq_S, map_app, concat_app, IH. simpl.
  rewrite app_nil_r, firstn_then_firstn. f_equal. lia.
Qed.

Lemma chunks_concat {A} (b : nat) (l : list A) :
  (1 <= b)%nat -> List.concat (chunks b l) = l.
Proof.
  intros Hb. unfold chunks. rewrite chunks_prefix. apply firstn_all2.
  pose proof (Nat.div_mod_eq (List.length l + b - 1) b) as Hd.
  pose proof (Nat.mod_upper_bound (List.length l + b - 1) b) as Hm.
  nia.
Qed.

Lemma no_throw_yield_all bs : no_throw (yield_all bs).
Proof. induction bs as [ | b bs IH ]; [ exact I | exact IH ]. Qed.

Lemma combine_fst_snd {A B} (l : list (A * B)) : combine (map fst l) (map snd l) = l.
Proof.
  induction l as [ | [a b] l IH ]; [ reflexivity | ]. simpl. now rewrite IH.
Qed.

Lemma samples_of_yield_all bs : samples_of (yield_all bs) = List.concat bs.
Proof.
  unfold samples_of. induction bs as [ | b bs IH ]; [ reflexivity | ].
  simpl. now rewrite IH, combine_fst_snd.
Qed.

Lemma sample_count_yield_all bs : sample_count (yield_all bs) = List.length (List.concat bs).
Proof.
  unfold sample_count. induction bs as [ | b bs IH ]; [ reflexivity | ].
  simpl. now rewrite IH, length_app, length_map.
Qed.

Lemma gen_batch_function_unfold data_folder image_shape b e samples :
  1 <= b ->
  training_samples data_folder image_shape e = inr samples ->
  gen_batch_function data_folder image_shape b e =
  (yield_all (chunks (Z.to_nat b) (fst (shuffle (List.length samples) samples e))),
   snd (shuffle (List.length samples) samples e)).
Proof.
  intros Hb Hs. unfold gen_batch_function. rewrite Hs.
  destruct (Z.ltb_spec b 1) as [ Hlt | _ ]; [ lia | ].
  destruct (shuffle _ samples e) as [order e']. reflexivity.
Qed.

(** C2. Each time the batch generator is invoked with a batch size of at
    least 1 on a present training set, that is in every epoch, it yields
    its batches without raising; their sample counts add up to the size
    of the training set, and their samples are the training set in some
    order, no sample twice and none left out. *)
Theorem batches_partition_training_set :
  forall data_folder image_shape b e samples,
    1 <= b ->
    training_samples data_folder image_shape e = inr samples ->
    let gen := fst (gen_batch_function data_folder image_shape b e) in
    no_throw gen
    /\ sample_count gen = List.length samples
    /\ Permutation (samples_of gen) samples.
Proof.
  intros data_folder image_shape b e samples Hb Hs gen. unfold gen.
  rewrite (gen_batch_function_unfold _ _ _ _ _ Hb Hs). cbn [fst].
  assert (Hc : forall l : list (Image * Label), List.concat (chunks (Z.to_nat b) l) = l)
    by (intros l; apply chunks_concat; lia).
  split; [ apply no_throw_yield_all | ].
  rewrite sample_count_yield_all, samples_of_yield_all, !Hc.
  split; [ apply Permutation_length | ]; apply shuffle_perm.
Qed.

End Proofs.

(** ** The skip connections of [layers] *)

Lemma conv_out_1x1 d d' : conv_out d 1 1 VALID = Some d' -> d' = d /\ at_least_one d.
Proof.
  destruct d as [ n | ]; simpl.
  - destruct (Z.leb_spec 1 n) as [ Hn | _ ]; [ | discriminate ].
    intros E. inversion E; subst. rewrite Z.div_1_r. split; [ f_equal; lia | exact Hn ].
  - intros E. inversion E. split; [ reflexivity | exact I ].
Qed.

Lemma conv_out_1x1_ok d : at_least_one d -> conv_out d 1 1 VALID = Some d.
Proof.
  destruct d as [ n | ]; simpl; [ | reflexivity ].
  intros Hn. destruct (Z.leb_spec 1 n) as [ _ | Hlt ]; [ | lia ].
  rewrite Z.div_1_r. do 2 f_equal. lia.
Qed.

Lemma broadcast_dim_same d : broadcast_dim d d = Some d.
Proof. destruct d as [ n | ]; simpl; [ now rewrite Z.eqb_refl | reflexivity ]. Qed.

Lemma deconv_out_twice d : deconv_out d 4 2 SAME = twice d.
Proof. destruct d; reflexivity. Qed.

Section SkipConnections.

Variables (name3 name4 name7 : string) (n3 h3 w3 n4 h4 w4 n7 h7 w7 : dim) (c3 c4 c7 : Z)
          (num_classes : Z).

Let vgg_layer3_out := Placeholder name3 (Some [n3; h3; w3; Some c3]).
Let vgg_layer4_out := Placeholder name4 (Some [n4; h4; w4; Some c4]).
Let vgg_layer7_out := Placeholder name7 (Some [n7; h7; w7; Some c7]).

Lemma layers_built g :
  layers vgg_layer3_out vgg_layer4_out vgg_layer7_out num_classes = Some g ->
  exists bn bh bw fcn_layer8 s9,
    at_least_one h7 /\ at_least_one w7
    /\ broadcast_dim n7 n4 = Some bn
    /\ broadcast_dim (twice h7) h4 = Some bh
    /\ broadcast_dim (twice w7) w4 = Some bw
    /\ let fcn_layer9 :=
         Conv2DTranspose "fcn_layer9" (Some [n7; twice h7; twice w7; Some c4])
                         fcn_layer8 c4 4 (2, 2) SAME in
       let skip4 := Add "fcn_layer9_skip_from_vgg_layer4" s9 fcn_layer9 vgg_layer4_out in
       let fcn_layer10 :=
         Conv2DTranspose "fcn10_conv2d" (Some [bn; twice bh; twice bw; Some c3])
                         skip4 c3 4 (2, 2) SAME in
       adds_of fcn_layer8 = []
       /\ adds_of g = [(fcn_layer9, vgg_layer4_out); (fcn_layer10, vgg_layer3_out)].
Proof.
  subst vgg_layer3_out vgg_layer4_out vgg_layer7_out.
  unfold layers, bind_opt, conv2d. cbn [get_shape fst snd].
  destruct (num_classes <? 0) eqn:En; [ discriminate | ].
  destruct (conv_out h7 1 1 VALID) as [ h8 | ] eqn:Eh; [ | discriminate ].
  destruct (conv_out w7 1 1 VALID) as [ w8 | ] eqn:Ew; [ | discriminate ].
  apply conv_out_1x1 in Eh, Ew. destruct Eh as [-> Hh], Ew as [-> Hw].
  cbn [get_shape as_list_last rev app conv2d_transpose fst snd].
  destruct (c4 <? 0); [ discriminate | ].
  rewrite !deconv_out_twice.
  unfold tf_add at 1. cbn [get_shape broadcast_shape rev app broadcast_rev].
  rewrite (broadcast_dim_same (Some c4)).
  destruct (broadcast_dim (twice w7) w4) as [ bw | ] eqn:Ebw; [ | discriminate ].
  destruct (broadcast_dim (twice h7) h4) as [ bh | ] eqn:Ebh; [ | discriminate ].
  destruct (broadcast_dim n7 n4) as [ bn | ] eqn:Ebn; [ | discriminate ].
  cbn [rev app get_shape conv2d_transpose fst snd].
  destruct (c3 <? 0); [ discriminate | ].
  rewrite !deconv_out_twice.
  unfold tf_add. cbn [get_shape broadcast_shape rev app broadcast_rev].
  rewrite (broadcast_dim_same (Some c3)).
  destruct (broadcast_dim (twice bw) w3) as [ bw' | ]; [ | discriminate ].
  destruct (broadcast_dim (twice bh) h3) as [ bh' | ]; [ | discriminate ].
  destruct (broadcast_dim bn n3) as [ bn' | ]; [ | discriminate ].
  cbn [rev app get_shape conv2d_transpose fst snd]. rewrite En.
  intros H. inversion H; subst g. clear H.
  do 5 eexists. repeat split; try eassumption; reflexivity.
Qed.

End SkipConnections.

Lemma deconv_out_times32 d : deconv_out (twice (twice d)) 16 8 SAME = times 32 d.
Proof. destruct d as [ n | ]; simpl; [ f_equal; lia | reflexivity ]. Qed.

Lemma filters_accepted f : 1 <= f -> (f <? 0) = false.
Proof. intros H. apply Z.ltb_ge. lia. Qed.

Lemma layers_doubling_built name3 name4 name7 n3 h3 w3 n4 h4 w4 n7 h7 w7 c3 c4 c7
      num_classes :
  1 <= num_classes -> 1 <= c3 -> 1 <= c4 -> 1 <= c7 ->
  at_least_one h7 -> at_least_one w7 -> doubling n3 h3 w3 n4 h4 w4 n7 h7 w7 ->
  exists g,
    layers (Placeholder name3 (Some [n3; h3; w3; Some c3]))
           (Placeholder name4 (Some [n4; h4; w4; Some c4]))
           (Placeholder name7 (Some [n7; h7; w7; Some c7])) num_classes = Some g
    /\ get_shape g = Some [n7; times 32 h7; times 32 w7; Some num_classes]
    /\ Forall same_shapes (adds_of g).
Proof.
  unfold doubling. intros Hn H3 H4 _ Hh Hw (-> & -> & -> & -> & -> & ->).
  unfold layers, bind_opt, conv2d. cbn [get_shape fst snd].
  rewrite (filters_accepted num_classes Hn).
  rewrite !conv_out_1x1_ok by assumption.
  cbn [get_shape as_list_last rev app conv2d_transpose fst snd].
  rewrite (filters_accepted c4 H4), !deconv_out_twice.
  unfold tf_add at 1. cbn [get_shape broadcast_shape rev app broadcast_rev].
  rewrite !broadcast_dim_same.
  cbn [rev app get_shape conv2d_transpose fst snd].
  rewrite (filters_accepted c3 H3), !deconv_out_twice.
  unfold tf_add. cbn [get_shape broadcast_shape rev app broadcast_rev].
  rewrite !broadcast_dim_same.
  cbn [rev app get_shape conv2d_transpose fst snd].
  rewrite (filters_accepted num_classes Hn), !deconv_out_times32.
  eexists. split; [ reflexivity | ]. split; [ reflexivity | ].
  cbn [adds_of app]. repeat constructor.
Qed.

(** C9 (amended). For feature maps of rank 4 with known channel counts,
    the graph of [layers] has exactly two additions, one per skip
    connection. The transposed convolution feeding each of them is built
    with the channel count of the skip source, so the channel dimensions
    of the two operands always agree. The operands of both additions have
    the same static shape (an unknown extent matching an unknown one)
    exactly when the batch extents agree and each skip source has twice
    the height and width of the tensor upsampled into it; in that case,
    for positive channel counts and number of classes and for maps of at
    least one row and column, the graph is built. *)
Theorem skip_additions_match_when_doubling :
  forall name3 name4 name7 n3 h3 w3 n4 h4 w4 n7 h7 w7 c3 c4 c7 num_classes,
    let vgg_layer3_out := Placeholder name3 (Some [n3; h3; w3; Some c3]) in
    let vgg_layer4_out := Placeholder name4 (Some [n4; h4; w4; Some c4]) in
    let vgg_layer7_out := Placeholder name7 (Some [n7; h7; w7; Some c7]) in
    (forall g,
        layers vgg_layer3_out vgg_layer4_out vgg_layer7_out num_classes = Some g ->
        exists fcn_layer9 fcn_layer10,
          adds_of g = [(fcn_layer9, vgg_layer4_out); (fcn_layer10, vgg_layer3_out)]
          /\ as_list_last (get_shape fcn_layer9) = as_list_last (get_shape vgg_layer4_out)
          /\ as_list_last (get_shape fcn_layer10) = as_list_last (get_shape vgg_layer3_out)
          /\ (Forall same_shapes (adds_of g) <-> doubling n3 h3 w3 n4 h4 w4 n7 h7 w7))
    /\ (1 <= num_classes -> 1 <= c3 -> 1 <= c4 -> 1 <= c7 ->
        at_least_one h7 -> at_least_one w7 -> doubling n3 h3 w3 n4 h4 w4 n7 h7 w7 ->
        exists g,
          layers vgg_layer3_out vgg_layer4_out vgg_layer7_out num_classes = Some g
          /\ Forall same_shapes (adds_of g)).
Proof.
  intros. split.
  - intros g Hg. apply layers_built in Hg.
    destruct Hg as (bn & bh & bw & fcn_layer8 & s9 & _ & _ & Ebn & Ebh & Ebw & _ & Ha).
    do 2 eexists. split; [ exact Ha | ]. split; [ reflexivity | ]. split; [ reflexivity | ].
    rewrite Ha. unfold doubling. split.
    + intros HF. inversion HF as [ | ? ? H1 HF' ]; subst. inversion HF' as [ | ? ? H2 _ ]; subst.
      unfold same_shapes in H1, H2. cbn [fst snd get_shape] in H1, H2.
      inversion H1; subst. rewrite broadcast_dim_same in Ebn, Ebh, Ebw.
      inversion Ebn; subst. inversion Ebh; subst. inversion Ebw; subst.
      inversion H2; subst. repeat split; reflexivity.
    + intros (-> & -> & -> & -> & -> & ->). rewrite broadcast_dim_same in Ebn, Ebh, Ebw.
      inversion Ebn; subst. inversion Ebh; subst. inversion Ebw; subst.
      repeat constructor.
  - intros Hn H3 H4 H7 Hh Hw Hd.
    destruct (layers_doubling_built name3 name4 name7 n3 h3 w3 n4 h4 w4 n7 h7 w7
                c3 c4 c7 num_classes Hn H3 H4 H7 Hh Hw Hd) as (g & Hg & _ & HF).
    exists g. split; assumption.
Qed.

(** ** Concrete runs *)

Lemma one_epoch_two_batches_witness :
  let o := Toy.toy_train 1 2 Toy.world0 in
  outcome o = Returned tt
  /\ List.length (filter is_train_step (trace o)) = 2%nat
  /\ List.length (filter is_loss_line (trace o)) = 1%nat.
Proof.
  destruct (one_epoch_two_batches Toy.toy_batches Toy.h_train_op Toy.h_loss Toy.h_input
              Toy.h_label Toy.h_keep Toy.h_lr Toy.world0
              [1; 3] [true; true] [4; 2] [true; true]
              {| Toy.dataset := Some Toy.four_samples; Toy.seed := 1668674806 |})
    as (H1 & H2 & H3 & _).
  - reflexivity.
  - intros X y s [H | [H | []]]; inversion H; subst; do 2 eexists; reflexivity.
  - repeat split; assumption.
Defined.

Lemma batches_partition_training_set_witness :
  let gen := fst (Toy.toy_batches 2 (env Toy.world0)) in
  no_throw gen
  /\ sample_count gen = 4%nat
  /\ Permutation (samples_of gen) Toy.four_samples.
Proof.
  apply (batches_partition_training_set "./data/data_road/training" (160, 576) 2
           (env Toy.world0) Toy.four_samples).
  - lia.
  - reflexivity.
Defined.

Lemma failed_step_is_fatal_witness :
  outcome (Toy.toy_train 3 1 Toy.world_bad) = @Raised Toy.platform unit "shape mismatch".
Proof.
  refine (proj1 (proj2 (proj1 (@failed_step_is_fatal Toy.platform) 3 1 Toy.toy_batches
                          Toy.h_train_op
                          Toy.h_loss Toy.h_input Toy.h_label Toy.h_keep Toy.h_lr
                          Toy.world_bad
                          [@GetBatches Toy.platform 1;
                           @TrainStep Toy.platform
                             (@step_feed Toy.platform Toy.h_input Toy.h_label Toy.h_keep Toy.h_lr
                                        [1] [true]) (inr 1)]
                          (@step_feed Toy.platform Toy.h_input Toy.h_label Toy.h_keep Toy.h_lr
                                     [-3] [true])
                          "shape mismatch" [] _))).
  reflexivity.
Defined.

Lemma configuration_errors_precede_training_witness :
  run Toy.world_missing
  = (@Raised Toy.platform unit "Kitti dataset not found", Toy.world_missing,
     [@CheckDataset Toy.platform "./data"]).
Proof.
  apply (proj1 (@configuration_errors_precede_training Toy.platform) Toy.world_missing).
  reflexivity.
Defined.

Lemma inference_reads_trained_parameters_witness :
  sess (final (run Toy.world0)) = sess (final (training_phase Toy.world0)).
Proof.
  destruct (training_phase Toy.world0)
    as [[[[[logits keep_prob] img_input] | e] w1] t1] eqn:E.
  - exact (proj1 (proj2 (inference_reads_trained_parameters Toy.world0)
                        logits keep_prob img_input w1 t1 E)).
  - apply (f_equal (fun o => match outcome o with
                             | Returned _ => true
                             | Raised _ => false
                             end)) in E.
    vm_compute in E. discriminate E.
Defined.

(** The feature maps of a 160 x 576 image: 20 x 72, 10 x 36 and 5 x 18. *)
Lemma skip_additions_match_when_doubling_witness :
  exists g,
    layers (Placeholder "layer3_out:0" (Some [None; Some 20; Some 72; Some 256]))
           (Placeholder "layer4_out:0" (Some [None; Some 10; Some 36; Some 512]))
           (Placeholder "layer7_out:0" (Some [None; Some 5; Some 18; Some 4096])) 2 = Some g
    /\ Forall same_shapes (adds_of g).
Proof.
  apply (proj2 (skip_additions_match_when_doubling
                  "layer3_out:0" "layer4_out:0" "layer7_out:0"
                  None (Some 20) (Some 72) None (Some 10) (Some 36) None (Some 5) (Some 18)
                  256 512 4096 2)).
  - lia.
  - lia.
  - lia.
  - lia.
  - simpl. lia.
  - simpl. lia.
  - repeat split; reflexivity.
Defined.

(** C9 as stated fails: on feature maps of one row and one column the
    graph is built, by broadcasting, with additions whose operands differ
    in shape; on the maps of a 160 x 200 image (20 x 25, 10 x 13, 5 x 7)
    the first addition is rejected. *)
Lemma skip_additions_can_mismatch :
  (exists g,
      layers (Placeholder "layer3_out:0" (Some [Some 1; Some 1; Some 1; Some 256]))
             (Placeholder "layer4_out:0" (Some [Some 1; Some 1; Some 1; Some 512]))
             (Placeholder "layer7_out:0" (Some [Some 1; Some 1; Some 1; Some 4096])) 2
      = Some g
      /\ ~ Forall same_shapes (adds_of g))
  /\ layers (Placeholder "layer3_out:0" (Some [Some 1; Some 20; Some 25; Some 256]))
            (Placeholder "layer4_out:0" (Some [Some 1; Some 10; Some 13; Some 512]))
            (Placeholder "layer7_out:0" (Some [Some 1; Some 5; Some 7; Some 4096])) 2
     = None.
Proof.
  split; [ | vm_compute; reflexivity ].
  eexists. split; [ vm_compute; reflexivity | ].
  intros H. inversion H as [ | ? ? H1 _ ]; subst.
  unfold same_shapes in H1. cbn [fst snd get_shape] in H1. discriminate H1.
Qed.

(** * Further properties of the training loop *)

Section TrainingLoop.

Context {P : Platform}.

Variables (batch_size : Z) (get_batches_fn : batch_function)
          (train_op : operation)
          (cross_entropy_loss input_image correct_label keep_prob learning_rate : tensor).

Let train_batches' := train_batches train_op cross_entropy_loss input_image correct_label
                                    keep_prob learning_rate.
Let train_epoch' := train_epoch batch_size get_batches_fn train_op cross_entropy_loss
                                input_image correct_label keep_prob learning_rate.
Let train_nn' epochs := train_nn epochs batch_size get_batches_fn train_op cross_entropy_loss
                                 input_image correct_label keep_prob learning_rate.
Let ok_step' := ok_step input_image correct_label keep_prob learning_rate.
Let epoch_events' := epoch_events batch_size input_image correct_label keep_prob learning_rate.
Let epochs_events' := epochs_events batch_size input_image correct_label keep_prob
                                    learning_rate.

Lemma for_each_app {A} (l1 l2 : list A) (body : A -> M unit) w :
  for_each (l1 ++ l2) body w = bind (for_each l1 body) (fun _ => for_each l2 body) w.
Proof.
  revert w. induction l1 as [ | x l1 IH ]; intros w; simpl.
  - now rewrite bind_ret_l.
  - rewrite bind_assoc. apply bind_ext. intros _ w'. apply IH.
Qed.

Lemma bind_ret_unit (m : M unit) w : bind m (fun _ => ret tt) w = m w.
Proof.
  unfold bind, ret. destruct (m w) as [[[[] | e] w1] t1]; [ | reflexivity ].
  now rewrite app_nil_r.
Qed.

Lemma range_succ n : 0 <= n -> range (n + 1) = range n ++ [n].
Proof.
  intros Hn. unfold range.
  replace (Z.to_nat (n + 1)) with (S (Z.to_nat n)) by lia.
  rewrite seq_S, map_app. simpl. now rewrite Z2Nat.id.
Qed.

Lemma range_nonpositive n : n <= 0 -> range n = [].
Proof. intros Hn. unfold range. now replace (Z.to_nat n) with 0%nat by lia. Qed.

(** X1. [range] of a number that is not positive is empty: with zero or a
    negative number of epochs the training loop does nothing at all. *)
Theorem nonpositive_epochs_do_nothing :
  forall epochs w, epochs <= 0 -> train_nn' epochs w = (Returned tt, w, []).
Proof.
  intros epochs w Hn. unfold train_nn', train_nn.
  rewrite (range_nonpositive epochs Hn). reflexivity.
Qed.

(** X2. Training for one more epoch is training for [n] epochs and then
    running the loop body for epoch index [n] (printed as [n + 1]) on the
    world the [n] epochs left; if they raise, so does the longer run, with
    the same events. *)
Theorem one_more_epoch :
  forall n w,
    0 <= n ->
    train_nn' (n + 1) w = bind (train_nn' n) (fun _ => train_epoch' n) w.
Proof.
  intros n w Hn. unfold train_nn', train_nn. rewrite (range_succ n Hn), for_each_app.
  apply bind_ext. intros _ w'. cbn [for_each]. apply bind_ret_unit.
Qed.

Lemma map_fst_combine {A B} (a : list A) :
  forall b : list B, List.length b = List.length a -> map fst (combine a b) = a.
Proof.
  induction a as [ | x a IH ]; intros [ | y b ] H; simpl in *; try discriminate; auto.
  f_equal. apply IH. lia.
Qed.

Lemma map_snd_combine {A B} (a : list A) :
  forall b : list B, List.length b = List.length a -> map snd (combine a b) = b.
Proof.
  induction a as [ | x a IH ]; intros [ | y b ] H; simpl in *; try discriminate; auto.
  f_equal. apply IH. lia.
Qed.

(** The inner loop returns only when the generator ends without an
    exception and every yielded batch got its step. *)
Lemma train_batches_returned gen :
  forall total w l w' t,
    train_batches' gen total w = (Returned l, w', t) ->
    no_throw gen /\ env w' = env w
    /\ exists losses,
        List.length losses = List.length (yields gen)
        /\ t = map ok_step' (combine (yields gen) losses)
        /\ l = fold_left loss_add losses total.
Proof.
  unfold train_batches', ok_step'.
  induction gen as [ | X y next IH | e ]; intros total w l w' t H; simpl in H.
  - inversion H; subst. repeat split. exists []. repeat split.
  - unfold bind, sess_run_step in H.
    destruct (session_run_step _ _ _ (sess w)) as [e | [l0 s']]; [ discriminate | ].
    destruct (train_batches _ _ _ _ _ _ next _ _) as [[r2 w2] t2] eqn:E.
    inversion H; subst. apply IH in E.
    destruct E as (Hn & He & losses & Hl & -> & ->).
    split; [ exact Hn | split; [ exact He | ] ].
    exists (l0 :: losses). cbn [yields List.length combine map fold_left app].
    repeat split. now rewrite Hl.
  - discriminate.
Qed.

Lemma train_epoch_returned epoch w u w' t :
  train_epoch' epoch w = (Returned u, w', t) ->
  let gen := fst (get_batches_fn batch_size (env w)) in
  no_throw gen
  /\ env w' = snd (get_batches_fn batch_size (env w))
  /\ exists losses,
      List.length losses = List.length (yields gen)
      /\ t = epoch_events' epoch (combine (yields gen) losses).
Proof.
  unfold train_epoch', train_epoch, bind at 1, call_batches.
  destruct (get_batches_fn batch_size (env w)) as [gen e']. cbn [fst snd].
  unfold bind at 1.
  destruct (train_batches _ _ _ _ _ _ gen _ _) as [[[l | e] w1] t1] eqn:E;
    [ | discriminate ].
  apply train_batches_returned in E. destruct E as (Hn & He & losses & Hl & -> & ->).
  unfold bind, print. intros H. inversion H; subst.
  split; [ exact Hn | split; [ exact He | ] ].
  exists losses. split; [ exact Hl | ].
  unfold epoch_events', epoch_events, cumulative_loss.
  rewrite (map_snd_combine _ _ Hl). reflexivity.
Qed.

Lemma epochs_returned n :
  forall first w u w' t,
    for_each (map Z.of_nat (seq first n)) train_epoch' w = (Returned u, w', t) ->
    Forall no_throw (fst (epoch_generators get_batches_fn batch_size n (env w)))
    /\ env w' = snd (epoch_generators get_batches_fn batch_size n (env w))
    /\ exists segs,
        t = epochs_events' (Z.of_nat first) segs
        /\ map (map fst) segs
           = map yields (fst (epoch_generators get_batches_fn batch_size n (env w))).
Proof.
  induction n as [ | n IH ]; intros first w u w' t H; simpl in H.
  - inversion H; subst. repeat split; [ constructor | ]. exists []. split; reflexivity.
  - unfold bind in H.
    destruct (train_epoch' (Z.of_nat first) w) as [[[[] | e] w1] t1] eqn:E;
      [ | discriminate ].
    apply train_epoch_returned in E. destruct E as (Hn & He & losses & Hl & ->).
    destruct (for_each _ train_epoch' w1) as [[r2 w2] t2] eqn:E2.
    inversion H; subst. apply IH in E2. destruct E2 as (HF & He2 & segs & -> & Hs).
    cbn [epoch_generators]. rewrite He in HF, He2, Hs.
    destruct (get_batches_fn batch_size (env w)) as [gen e']. cbn [fst snd] in *.
    destruct (epoch_generators get_batches_fn batch_size n e') as [gens e''].
    cbn [fst snd] in *.
    split; [ constructor; assumption | split; [ exact He2 | ] ].
    exists (combine (yields gen) losses :: segs). split.
    + unfold epochs_events'. cbn [epochs_events].
      replace (epochs_events _ _ _ _ _ (Z.of_nat first + 1) segs)
        with (epochs_events batch_size input_image correct_label keep_prob learning_rate
                            (Z.of_nat (S first)) segs)
        by (f_equal; lia).
      reflexivity.
    + cbn [map]. now rewrite Hs, (map_fst_combine _ _ Hl).
Qed.

(** The epochs a loop completed, whether it returns or raises, performed
    one step per batch of the first generators, in order. *)
Lemma epochs_completed n :
  forall first w r w' t,
    for_each (map Z.of_nat (seq first n)) train_epoch' w = (r, w', t) ->
    exists segs rest,
      t = epochs_events' (Z.of_nat first) segs ++ rest
      /\ reports_nothing rest
      /\ map (map fst) segs
         = map yields
               (firstn (List.length segs)
                       (fst (epoch_generators get_batches_fn batch_size n (env w))))
      /\ match r with
         | Returned _ => List.length segs = n /\ rest = []
         | Raised _ => (List.length segs < n)%nat
         end.
Proof.
  induction n as [ | n IH ]; intros first w r w' t H; simpl in H.
  - inversion H; subst. exists [], []. repeat split. constructor.
  - unfold bind in H.
    destruct (train_epoch' (Z.of_nat first) w) as [[[[] | e] w1] t1] eqn:E.
    + apply train_epoch_returned in E. destruct E as (Hn & He & losses & Hl & ->).
      destruct (for_each _ train_epoch' w1) as [[r2 w2] t2] eqn:E2.
      inversion H; subst. apply IH in E2. destruct E2 as (segs & rest & -> & Hr & Hs & Ho).
      cbn [epoch_generators]. rewrite He in Hs.
      destruct (get_batches_fn batch_size (env w)) as [gen e']. cbn [fst snd] in *.
      destruct (epoch_generators get_batches_fn batch_size n e') as [gens e''].
      cbn [fst snd] in *.
      exists (combine (yields gen) losses :: segs), rest.
      split; [ | split; [ exact Hr | split ] ].
      * unfold epochs_events'. cbn [epochs_events].
        replace (epochs_events _ _ _ _ _ (Z.of_nat first + 1) segs)
          with (epochs_events batch_size input_image correct_label keep_prob learning_rate
                              (Z.of_nat (S first)) segs)
          by (f_equal; lia).
        unfold epoch_events'.
        rewrite <- (app_assoc (epoch_events _ _ _ _ _ (Z.of_nat first) _)). reflexivity.
      * cbn [map List.length firstn]. now rewrite Hs, (map_fst_combine _ _ Hl).
      * destruct r; cbn [List.length]; [ destruct Ho; split; congruence | lia ].
    + apply (train_epoch_structure batch_size get_batches_fn train_op cross_entropy_loss
               input_image correct_label keep_prob learning_rate) in E.
      inversion H; subst. exists [], t. repeat split; [ exact E | simpl; lia ].
Qed.

(** X3. When the training loop returns, the generators of its epochs are
    those of successive calls of [get_batches_fn(batch_size)], each on the
    environment the previous call left; none of them raised, the loop
    leaves the environment of the last call, and every epoch performed
    exactly one optimization step per yielded batch, in the order of the
    generator. *)
Theorem returned_run_trains_on_every_batch :
  forall epochs w u w' t,
    train_nn' epochs w = (Returned u, w', t) ->
    let gens := epoch_generators get_batches_fn batch_size (Z.to_nat epochs) (env w) in
    Forall no_throw (fst gens)
    /\ env w' = snd gens
    /\ exists segs,
        t = epochs_events' 0 segs
        /\ map (map fst) segs = map yields (fst gens).
Proof.
  intros epochs w u w' t H. unfold train_nn', train_nn, range in H.
  apply (epochs_returned (Z.to_nat epochs) 0%nat) in H. exact H.
Qed.

Lemma train_batches_thrown gen :
  engine_total train_op cross_entropy_loss ->
  forall e total w,
    thrown gen = Some e ->
    exists losses w',
      List.length losses = List.length (yields gen)
      /\ train_batches' gen total w
         = (Raised e, w', map ok_step' (combine (yields gen) losses)).
Proof.
  intros He. unfold train_batches', ok_step'.
  induction gen as [ | X y next IH | e0 ]; intros e total w Ht; simpl in Ht.
  - discriminate.
  - cbn [train_batches]. unfold bind, sess_run_step.
    destruct (He (step_feed input_image correct_label keep_prob learning_rate X y) (sess w))
      as (l & s' & ->).
    destruct (IH e (loss_add total l) {| env := env w; sess := s' |} Ht)
      as (losses & w' & Hl & ->).
    exists (l :: losses), w'. cbn [yields List.length combine map app].
    split; [ now rewrite Hl | reflexivity ].
  - inversion Ht; subst. exists [], w. split; reflexivity.
Qed.

(** X4. An exception of the batch generator is not caught: if the first
    generator raises after some batches and the engine performs the steps
    on them, the training loop raises that exception after one step per
    batch yielded before it, and prints nothing. *)
Theorem generator_exception_propagates :
  forall epochs w e,
    1 <= epochs ->
    engine_total train_op cross_entropy_loss ->
    thrown (fst (get_batches_fn batch_size (env w))) = Some e ->
    exists losses w',
      List.length losses = List.length (yields (fst (get_batches_fn batch_size (env w))))
      /\ train_nn' epochs w
         = (Raised e, w',
            GetBatches batch_size ::
            map ok_step' (combine (yields (fst (get_batches_fn batch_size (env w)))) losses)).
Proof.
  intros epochs w e Hn He Ht. unfold train_nn', train_nn, range.
  destruct (Z.to_nat epochs) as [ | k ] eqn:Ek; [ lia | ].
  cbn [seq map for_each]. unfold bind at 1, train_epoch, bind at 1, call_batches.
  destruct (get_batches_fn batch_size (env w)) as [gen e']. cbn [fst] in *.
  unfold bind at 1.
  destruct (train_batches_thrown gen He e loss_zero {| env := e'; sess := sess w |} Ht)
    as (losses & w' & Hl & E).
  unfold train_batches' in E. rewrite E.
  exists losses, w'. split; [ exact Hl | reflexivity ].
Qed.

Lemma empty_epochs n :
  (forall e, fst (get_batches_fn batch_size e) = Stop) ->
  forall first w,
    exists w',
      for_each (map Z.of_nat (seq first n)) train_epoch' w
      = (Returned tt, w', epochs_events' (Z.of_nat first) (repeat [] n))
      /\ sess w' = sess w.
Proof.
  intros Hg. induction n as [ | n IH ]; intros first w; cbn [seq map for_each repeat].
  - exists w. split; reflexivity.
  - unfold bind at 1, train_epoch' at 1, train_epoch, bind at 1, call_batches.
    specialize (Hg (env w)).
    destruct (get_batches_fn batch_size (env w)) as [gen e']. cbn [fst] in Hg. subst gen.
    cbn [train_batches]. unfold bind, ret, print.
    destruct (IH (S first) {| env := e'; sess := sess w |}) as (w' & E & Hs).
    unfold bind in E. rewrite E. exists w'. split; [ | exact Hs ].
    unfold epochs_events'. cbn [epochs_events]. unfold epoch_events. cbn [map app].
    do 2 f_equal. do 4 f_equal. f_equal. lia.
Qed.

(** X5. On an empty training set, that is with a generator that yields no
    batch, every epoch still calls the generator and prints its report:
    the loss printed is the initial 0, no optimization step is performed
    and the session is left as it was. *)
Theorem empty_epochs_report_zero :
  forall epochs w,
    (forall e, fst (get_batches_fn batch_size e) = Stop) ->
    exists w',
      train_nn' epochs w
      = (Returned tt, w', epochs_events' 0 (repeat [] (Z.to_nat epochs)))
      /\ sess w' = sess w
      /\ filter is_train_step (trace (train_nn' epochs w)) = []
      /\ Forall (fun ev => match ev with
                           | Print (LossLine total) => total = loss_zero
                           | _ => True
                           end) (trace (train_nn' epochs w)).
Proof.
  intros epochs w Hg. unfold train_nn', train_nn, range.
  destruct (empty_epochs (Z.to_nat epochs) Hg 0%nat w) as (w' & E & Hs).
  unfold train_epoch' in E. exists w'. rewrite E.
  split; [ reflexivity | split; [ exact Hs | ] ].
  unfold trace. cbn [snd]. change (Z.of_nat 0) with 0.
  generalize 0. generalize (Z.to_nat epochs). intros n.
  induction n as [ | n IH ]; intros first; [ split; [ reflexivity | constructor ] | ].
  destruct (IH (first + 1)) as [H1 H2].
  unfold epochs_events' in *. cbn [repeat epochs_events]. unfold epoch_events.
  cbn [map app filter is_train_step]. split; [ exact H1 | ].
  repeat constructor. exact H2.
Qed.

Lemma epoch_numbers_app t1 t2 :
  epoch_numbers (t1 ++ t2) = epoch_numbers t1 ++ epoch_numbers t2.
Proof. apply flat_map_app. Qed.

Lemma epoch_numbers_steps steps : epoch_numbers (map ok_step' steps) = [].
Proof. induction steps as [ | s steps IH ]; [ reflexivity | exact IH ]. Qed.

Lemma epoch_numbers_silent rest : reports_nothing rest -> epoch_numbers rest = [].
Proof.
  induction 1 as [ | ev rest Hev _ IH ]; [ reflexivity | ].
  unfold epoch_numbers. cbn [flat_map]. fold (epoch_numbers rest). rewrite IH.
  destruct ev as [ | | | | | | l | | | ]; try reflexivity. destruct Hev.
Qed.

Lemma epoch_numbers_epochs segs :
  forall first,
    epoch_numbers (epochs_events' first segs)
    = map (fun i => first + Z.of_nat i + 1) (seq 0 (List.length segs)).
Proof.
  unfold epochs_events'.
  induction segs as [ | steps segs IH ]; intros first; [ reflexivity | ].
  cbn [epochs_events List.length seq map]. rewrite epoch_numbers_app, IH.
  rewrite <- seq_shift, map_map. unfold epoch_events.
  change (GetBatches batch_size :: ?l) with ([GetBatches batch_size] ++ l).
  rewrite !epoch_numbers_app. fold ok_step'. rewrite epoch_numbers_steps.
  cbn [epoch_numbers flat_map app]. f_equal; [ lia | ].
  apply map_ext. intros i. lia.
Qed.

(** X6. The "EPOCH" lines are numbered from 1, in order and without gaps;
    a loop that returns has printed the numbers 1 to [epochs], a loop that
    raises those of the epochs it completed. *)
Theorem epochs_are_numbered_from_one :
  forall epochs w,
    exists k,
      (k <= Z.to_nat epochs)%nat
      /\ epoch_numbers (trace (train_nn' epochs w))
         = map (fun i => Z.of_nat i + 1) (seq 0 k)
      /\ (forall u, outcome (train_nn' epochs w) = Returned u -> k = Z.to_nat epochs).
Proof.
  intros epochs w.
  destruct (train_nn_structure epochs batch_size get_batches_fn train_op
              cross_entropy_loss input_image correct_label keep_prob learning_rate w)
    as (segs & rest & Ht & Hr & Ho).
  fold (train_nn' epochs) in Ht, Ho. exists (List.length segs).
  split; [ | split ].
  - destruct (outcome (train_nn' epochs w)); [ destruct Ho as [-> _]; lia | lia ].
  - rewrite Ht, epoch_numbers_app, (epoch_numbers_silent rest Hr), app_nil_r.
    apply (epoch_numbers_epochs segs 0).
  - intros u Hu. rewrite Hu in Ho. apply Ho.
Qed.

End TrainingLoop.

(** * Further properties of [layers] *)

Lemma conv2d_rank4 inputs filters kernel_size strides pad name g :
  conv2d inputs filters kernel_size strides pad name = Some g ->
  exists n h w c, get_shape inputs = Some [n; h; w; Some c].
Proof.
  unfold conv2d.
  destruct (get_shape inputs) as [ [ | n [ | h [ | w [ | [ c | ] [ | ? ? ] ] ] ] ] | ];
    try discriminate.
  intros _. now exists n, h, w, c.
Qed.

Lemma conv2d_transpose_filters inputs filters kernel_size strides pad name g :
  conv2d_transpose inputs filters kernel_size strides pad name = Some g ->
  exists f n h w,
    filters = Some f /\ get_shape g = Some [n; h; w; Some f].
Proof.
  unfold conv2d_transpose.
  destruct (get_shape inputs) as [ [ | n [ | h [ | w [ | [ c | ] [ | ? ? ] ] ] ] ] | ];
    try discriminate.
  destruct filters as [ f | ]; [ | discriminate ].
  destruct (f <? 0); [ discriminate | ].
  intros H. inversion H; subst. cbn [get_shape]. eauto 6.
Qed.

(** X7. Whatever tensors [layers] is given, the graph it builds ends in
    [num_classes] channels. On rank-4 feature maps with positive channel
    counts, equal batch extents and at least one row and column, in which
    each skip source has twice the height and width of the deeper map,
    the graph is built for a positive number of classes and its output
    has the batch extent of layer 7 and 32 times its height and width:
    the 5 x 18 map of a 160 x 576 image gives back 160 x 576. *)
Theorem layers_output_shape :
  (forall vgg_layer3_out vgg_layer4_out vgg_layer7_out num_classes g,
      layers vgg_layer3_out vgg_layer4_out vgg_layer7_out num_classes = Some g ->
      as_list_last (get_shape g) = Some (Some num_classes))
  /\ (forall name3 name4 name7 n3 h3 w3 n4 h4 w4 n7 h7 w7 c3 c4 c7 num_classes,
        1 <= num_classes -> 1 <= c3 -> 1 <= c4 -> 1 <= c7 ->
        at_least_one h7 -> at_least_one w7 -> doubling n3 h3 w3 n4 h4 w4 n7 h7 w7 ->
        exists g,
          layers (Placeholder name3 (Some [n3; h3; w3; Some c3]))
                 (Placeholder name4 (Some [n4; h4; w4; Some c4]))
                 (Placeholder name7 (Some [n7; h7; w7; Some c7])) num_classes = Some g
          /\ get_shape g = Some [n7; times 32 h7; times 32 w7; Some num_classes]).
Proof.
  split.
  - intros l3 l4 l7 num_classes g. unfold layers, bind_opt.
    destruct (conv2d l7 _ _ _ _ _) as [ f8 | ]; [ | discriminate ].
    destruct (as_list_last (get_shape l4)) as [ f9 | ]; [ | discriminate ].
    destruct (conv2d_transpose f8 _ _ _ _ _) as [ t9 | ]; [ | discriminate ].
    destruct (tf_add t9 _ _) as [ s4 | ]; [ | discriminate ].
    destruct (as_list_last (get_shape l3)) as [ f10 | ]; [ | discriminate ].
    destruct (conv2d_transpose s4 _ _ _ _ _) as [ t10 | ]; [ | discriminate ].
    destruct (tf_add t10 _ _) as [ s3 | ]; [ | discriminate ].
    destruct (conv2d_transpose s3 _ _ _ _ _) as [ t11 | ] eqn:E; [ | discriminate ].
    intros H. inversion H; subst.
    apply conv2d_transpose_filters in E. destruct E as (f & n & h & w & Hf & ->).
    inversion Hf; subst. reflexivity.
  - intros. destruct (layers_doubling_built name3 name4 name7 n3 h3 w3 n4 h4 w4 n7 h7 w7
                        c3 c4 c7 num_classes) as (g & Hg & Hs & _); try assumption.
    exists g. split; assumption.
Qed.

(** X8. [layers] needs a layer-7 tensor of rank 4 with a known channel
    count, and skip sources whose shape has a known rank and a known last
    dimension: with anything else the construction raises. *)
Theorem layers_needs_known_channels :
  forall vgg_layer3_out vgg_layer4_out vgg_layer7_out num_classes g,
    layers vgg_layer3_out vgg_layer4_out vgg_layer7_out num_classes = Some g ->
    (exists n h w c, get_shape vgg_layer7_out = Some [n; h; w; Some c])
    /\ (exists c4, as_list_last (get_shape vgg_layer4_out) = Some (Some c4))
    /\ (exists c3, as_list_last (get_shape vgg_layer3_out) = Some (Some c3)).
Proof.
  intros l3 l4 l7 num_classes g. unfold layers, bind_opt.
  destruct (conv2d l7 _ _ _ _ _) as [ f8 | ] eqn:E8; [ | discriminate ].
  destruct (as_list_last (get_shape l4)) as [ f9 | ]; [ | discriminate ].
  destruct (conv2d_transpose f8 _ _ _ _ _) as [ t9 | ] eqn:E9; [ | discriminate ].
  destruct (tf_add t9 _ _) as [ s4 | ]; [ | discriminate ].
  destruct (as_list_last (get_shape l3)) as [ f10 | ]; [ | discriminate ].
  destruct (conv2d_transpose s4 _ _ _ _ _) as [ t10 | ] eqn:E10; [ | discriminate ].
  intros _.
  apply conv2d_rank4 in E8.
  apply conv2d_transpose_filters in E9, E10.
  destruct E9 as (c4 & _ & _ & _ & -> & _), E10 as (c3 & _ & _ & _ & -> & _).
  split; [ exact E8 | split; eauto ].
Qed.

(** X9. On feature maps whose batch extent, height and width are not
    known before run time, as those of the loaded graph, and whose channel
    counts are positive, [layers] builds its graph for every positive
    number of classes: the operands of both additions have the same
    static shape and the output is (?, ?, ?, num_classes). *)
Theorem layers_builds_on_unknown_extents :
  forall name3 name4 name7 c3 c4 c7 num_classes,
    1 <= num_classes -> 1 <= c3 -> 1 <= c4 -> 1 <= c7 ->
    exists g,
      layers (Placeholder name3 (Some [None; None; None; Some c3]))
             (Placeholder name4 (Some [None; None; None; Some c4]))
             (Placeholder name7 (Some [None; None; None; Some c7])) num_classes = Some g
      /\ get_shape g = Some [None; None; None; Some num_classes]
      /\ Forall same_shapes (adds_of g).
Proof.
  intros name3 name4 name7 c3 c4 c7 num_classes Hn H3 H4 H7.
  apply (layers_doubling_built name3 name4 name7 None None None None None None
                               None None None c3 c4 c7 num_classes Hn H3 H4 H7).
  - exact I.
  - exact I.
  - repeat split.
Qed.

(** * Further properties of [load_vgg] and [run] *)

Section EntryPoint.

Context {P : Platform}.

Lemma trace_bind {A B} (m : M A) (f : A -> M B) w :
  trace (bind m f w)
  = trace (m w) ++ match outcome (m w) with
                   | Returned a => trace (f a (final (m w)))
                   | Raised _ => []
                   end.
Proof.
  rewrite bind_eq. destruct (outcome (m w)); [ reflexivity | ].
  unfold trace at 1. cbn [snd]. now rewrite app_nil_r.
Qed.

Lemma trace_check_kitti_dataset d w : trace (check_kitti_dataset d w) = [CheckDataset d].
Proof. unfold check_kitti_dataset. now destruct (test_for_kitti_dataset d (env w)). Qed.

Lemma trace_download_pretrained_vgg d w :
  trace (download_pretrained_vgg d w) = [DownloadVgg d].
Proof.
  unfold download_pretrained_vgg. now destruct (maybe_download_pretrained_vgg d (env w)).
Qed.

Lemma trace_sess_run_init w : trace (sess_run_init w) = [InitVariables].
Proof. unfold sess_run_init. now destruct (session_run_init (sess w)). Qed.

Lemma trace_build {A} (g : option A) w : trace (build g w) = [].
Proof. now destruct g. Qed.

Lemma trace_get_tensor_by_name name w : trace (get_tensor_by_name name w) = [].
Proof. unfold get_tensor_by_name. now destruct (graph_get_tensor_by_name name (sess w)). Qed.

Lemma trace_load_vgg path w : trace (load_vgg path w) = [LoadModel ["vgg16"] path].
Proof.
  unfold load_vgg. cbv zeta. rewrite trace_bind.
  assert (Hl : trace (loader_load ["vgg16"] path w) = [LoadModel ["vgg16"] path]).
  { unfold loader_load. now destruct (saved_model_loader_load _ _ _ _). }
  rewrite Hl. destruct (outcome (loader_load _ _ w)); [ | reflexivity ].
  generalize (final (loader_load ["vgg16"] path w)). intros w1.
  cbn [app]. f_equal.
  repeat (rewrite trace_bind, trace_get_tensor_by_name; cbn [app];
          match goal with
          | |- match outcome (?m ?w0) with _ => _ end = [] =>
              let w' := fresh "w" in
              destruct (outcome (m w0)); [ generalize (final (m w0)); intros w' | reflexivity ]
          end).
  reflexivity.
Qed.

Lemma load_vgg_found vgg_path w s' input keep layer3 layer4 layer7 :
  saved_model_loader_load ["vgg16"] vgg_path (env w) (sess w) = inr s' ->
  graph_get_tensor_by_name "image_input:0" s' = inr input ->
  graph_get_tensor_by_name "keep_prob:0" s' = inr keep ->
  graph_get_tensor_by_name "layer3_out:0" s' = inr layer3 ->
  graph_get_tensor_by_name "layer4_out:0" s' = inr layer4 ->
  graph_get_tensor_by_name "layer7_out:0" s' = inr layer7 ->
  load_vgg vgg_path w
  = (Returned (input, keep, layer3, layer4, layer7),
     {| env := env w; sess := s' |}, [LoadModel ["vgg16"] vgg_path]).
Proof.
  intros Hl H1 H2 H3 H4 H5.
  unfold load_vgg, bind, loader_load, get_tensor_by_name. cbv zeta.
  rewrite Hl. cbn [sess env]. rewrite H1. cbn [sess env]. rewrite H2. cbn [sess env].
  rewrite H3. cbn [sess env]. rewrite H4. cbn [sess env]. rewrite H5. reflexivity.
Qed.

(** X13. [load_vgg] loads the model once, with the tag "vgg16", and then
    looks the five tensors up in the loaded graph. A failed load raises
    before any lookup and leaves the session; a name that is missing from
    the loaded graph raises too, with the model already loaded into the
    session; otherwise the five tensors are returned in the order input,
    keep probability, layer 3, layer 4, layer 7. *)
Theorem load_vgg_outcomes :
  (forall vgg_path w e,
      saved_model_loader_load ["vgg16"] vgg_path (env w) (sess w) = inl e ->
      load_vgg vgg_path w = (Raised e, w, [LoadModel ["vgg16"] vgg_path]))
  /\ (forall vgg_path w s' name e,
        saved_model_loader_load ["vgg16"] vgg_path (env w) (sess w) = inr s' ->
        In name vgg_tensor_names ->
        graph_get_tensor_by_name name s' = inl e ->
        exists e',
          load_vgg vgg_path w
          = (Raised e', {| env := env w; sess := s' |}, [LoadModel ["vgg16"] vgg_path]))
  /\ (forall vgg_path w s' input keep layer3 layer4 layer7,
        saved_model_loader_load ["vgg16"] vgg_path (env w) (sess w) = inr s' ->
        graph_get_tensor_by_name "image_input:0" s' = inr input ->
        graph_get_tensor_by_name "keep_prob:0" s' = inr keep ->
        graph_get_tensor_by_name "layer3_out:0" s' = inr layer3 ->
        graph_get_tensor_by_name "layer4_out:0" s' = inr layer4 ->
        graph_get_tensor_by_name "layer7_out:0" s' = inr layer7 ->
        load_vgg vgg_path w
        = (Returned (input, keep, layer3, layer4, layer7),
           {| env := env w; sess := s' |}, [LoadModel ["vgg16"] vgg_path])).
Proof.
  split; [ | split ].
  - intros vgg_path w e Hl. unfold load_vgg, bind, loader_load. cbv zeta.
    rewrite Hl. reflexivity.
  - intros vgg_path w s' name e Hl Hin He.
    unfold load_vgg, bind, loader_load, get_tensor_by_name. cbv zeta.
    rewrite Hl. cbn [sess env].
    destruct (graph_get_tensor_by_name "image_input:0" s') as [ e1 | t1 ] eqn:E1;
      cbn [sess env]; [ eexists; reflexivity | ].
    destruct (graph_get_tensor_by_name "keep_prob:0" s') as [ e2 | t2 ] eqn:E2;
      cbn [sess env]; [ eexists; reflexivity | ].
    destruct (graph_get_tensor_by_name "layer3_out:0" s') as [ e3 | t3 ] eqn:E3;
      cbn [sess env]; [ eexists; reflexivity | ].
    destruct (graph_get_tensor_by_name "layer4_out:0" s') as [ e4 | t4 ] eqn:E4;
      cbn [sess env]; [ eexists; reflexivity | ].
    destruct (graph_get_tensor_by_name "layer7_out:0" s') as [ e5 | t5 ] eqn:E5;
      cbn [sess env]; [ eexists; reflexivity | ].
    exfalso. unfold vgg_tensor_names in Hin.
    destruct Hin as [ <- | [ <- | [ <- | [ <- | [ <- | [] ] ] ] ] ]; congruence.
  - intros. now apply load_vgg_found.
Qed.

Lemma run_trace_cases w :
  (exists k, trace (run w) = firstn k run_preamble)
  \/ (exists t, trace (run w) = run_preamble ++ t).
Proof.
  unfold run, run_preamble. cbv zeta.
  rewrite trace_bind, trace_check_kitti_dataset.
  destruct (outcome (check_kitti_dataset _ w)); [ | left; now exists 1%nat ].
  generalize (final (check_kitti_dataset "./data" w)). intros w1.
  rewrite trace_bind, trace_download_pretrained_vgg.
  destruct (outcome (download_pretrained_vgg _ w1)); [ | left; now exists 2%nat ].
  generalize (final (download_pretrained_vgg "./data" w1)). intros w2.
  rewrite trace_bind, trace_load_vgg.
  destruct (outcome (load_vgg _ w2)) as [ [[[[img_input keep_prob] layer3] layer4] layer7] | e ];
    [ | left; now exists 3%nat ].
  generalize (final (load_vgg (os_path_join "./data" "vgg") w2)). intros w3.
  rewrite trace_bind, trace_build.
  destruct (outcome (build _ w3)) as [ model_out | e ]; [ | left; now exists 3%nat ].
  generalize (final (build (layers layer3 layer4 layer7 2) w3)). intros w4.
  unfold optimize. cbv zeta.
  rewrite trace_bind, trace_sess_run_init.
  destruct (outcome (sess_run_init w4)); [ | left; now exists 4%nat ].
  right. eexists. reflexivity.
Qed.

(** X10. [run] does its preparation in a fixed order: the check of the
    data set, the download, the loading of the model from "./data/vgg"
    with the tag "vgg16" and the initialization of the variables all come,
    in this order, before the first call of the batch generator, the first
    optimization step and the first printed line. *)
Theorem run_prepares_before_training :
  forall w pre ev post,
    trace (run w) = pre ++ ev :: post ->
    is_training ev = true ->
    exists mid, pre = run_preamble ++ mid.
Proof.
  intros w pre ev post Ht Hev.
  destruct (run_trace_cases w) as [ [k Hk] | [t Hk] ]; rewrite Hk in Ht; clear Hk.
  - exfalso. unfold run_preamble in Ht.
    destruct k as [ | [ | [ | [ | k ] ] ] ]; cbn [firstn] in Ht;
      destruct pre as [ | p1 [ | p2 [ | p3 [ | p4 pre ] ] ] ]; cbn [app] in Ht;
        inversion Ht; subst; try discriminate Hev.
    match goal with
    | H : firstn _ [] = _ |- _ => rewrite firstn_nil in H; destruct pre; discriminate H
    end.
  - unfold run_preamble in *.
    destruct pre as [ | p1 [ | p2 [ | p3 [ | p4 pre ] ] ] ]; cbn [app] in Ht;
      inversion Ht; subst; try discriminate Hev.
    exists pre. reflexivity.
Qed.

(** X11. A graph that cannot be built is fatal before anything is
    initialized or trained: when the check, the download, the load and the
    five lookups succeed but [layers] raises on the loaded feature maps,
    [run] raises the construction error right after the load. *)
Theorem run_stops_on_graph_error :
  forall w env' s' img_input keep_prob layer3 layer4 layer7,
    test_for_kitti_dataset "./data" (env w) = None ->
    maybe_download_pretrained_vgg "./data" (env w) = inr env' ->
    saved_model_loader_load ["vgg16"] "./data/vgg" env' (sess w) = inr s' ->
    graph_get_tensor_by_name "image_input:0" s' = inr img_input ->
    graph_get_tensor_by_name "keep_prob:0" s' = inr keep_prob ->
    graph_get_tensor_by_name "layer3_out:0" s' = inr layer3 ->
    graph_get_tensor_by_name "layer4_out:0" s' = inr layer4 ->
    graph_get_tensor_by_name "layer7_out:0" s' = inr layer7 ->
    layers layer3 layer4 layer7 2 = None ->
    run w = (Raised graph_error, {| env := env'; sess := s' |},
             [ CheckDataset "./data"; DownloadVgg "./data";
               LoadModel ["vgg16"] "./data/vgg" ]).
Proof.
  intros w env' s' img_input keep_prob layer3 layer4 layer7 Hc Hd Hl H1 H2 H3 H4 H5 Hg.
  unfold run. cbv zeta.
  unfold bind at 1, check_kitti_dataset. rewrite Hc.
  unfold bind at 1, download_pretrained_vgg. cbn [env sess]. rewrite Hd.
  unfold bind at 1.
  rewrite (load_vgg_found (os_path_join "./data" "vgg")
                 {| env := env'; sess := sess w |} s' img_input keep_prob
                 layer3 layer4 layer7 Hl H1 H2 H3 H4 H5).
  unfold bind at 1. rewrite Hg. reflexivity.
Qed.

Lemma training_phase_writes_nothing :
  every (fun ev => is_inference ev = false) training_phase.
Proof.
  unfold training_phase. cbv zeta.
  apply every_bind; [ apply every_check_kitti_dataset; reflexivity | intros _ ].
  apply every_bind; [ apply every_download_pretrained_vgg; reflexivity | intros _ ].
  apply every_bind; [ apply every_load_vgg; reflexivity | intros handles ].
  destruct handles as [[[[img_input keep_prob] layer3] layer4] layer7].
  apply every_bind; [ apply every_build | intros model_out ].
  unfold optimize. cbv zeta.
  apply every_bind; [ apply every_sess_run_init; reflexivity | intros _ ].
  apply every_bind; [ apply every_train_nn; reflexivity | intros _ ].
  apply every_ret.
Qed.

(** X12. When anything up to and including the training loop raises,
    [run] raises the same error with the same events and never reaches
    the inference: no output directory is created, no test image is
    evaluated and nothing is written. *)
Theorem failed_training_writes_nothing :
  forall w e,
    outcome (training_phase w) = Raised e ->
    outcome (run w) = Raised e
    /\ trace (run w) = trace (training_phase w)
    /\ Forall (fun ev => is_inference ev = false) (trace (run w)).
Proof.
  intros w e He. rewrite run_phases, bind_eq, He.
  unfold outcome at 1, trace at 1 3. cbn [fst snd].
  repeat split. apply training_phase_writes_nothing.
Qed.

End EntryPoint.

(** * Epoch reports, fed values and shuffling *)

Section Epochs.

Context {P : Platform}.

Lemma dict_get_set_same d k v : dict_get (dict_set d k v) k = Some v.
Proof.
  induction d as [ | [k' v'] d IH ]; simpl.
  - destruct (tensor_eq_dec k k); [ reflexivity | congruence ].
  - destruct (tensor_eq_dec k k') as [ E | E ]; simpl.
    + destruct (tensor_eq_dec k k'); [ reflexivity | congruence ].
    + destruct (tensor_eq_dec k k'); [ congruence | exact IH ].
Qed.

Lemma dict_get_set_other d k k' v : k <> k' -> dict_get (dict_set d k' v) k = dict_get d k.
Proof.
  intros Hk. induction d as [ | [k0 v0] d IH ]; simpl.
  - destruct (tensor_eq_dec k k'); [ congruence | reflexivity ].
  - destruct (tensor_eq_dec k' k0) as [ E | E ]; simpl.
    + subst k0. destruct (tensor_eq_dec k k'); [ congruence | reflexivity ].
    + destruct (tensor_eq_dec k k0); [ reflexivity | exact IH ].
Qed.

Lemma step_feed_constants input_image correct_label keep_prob learning_rate X y :
  let fd := step_feed input_image correct_label keep_prob learning_rate X y in
  dict_get fd learning_rate = Some (FScalar 0.001%Q)
  /\ (keep_prob <> learning_rate -> dict_get fd keep_prob = Some (FScalar 0.5%Q)).
Proof.
  unfold step_feed, dict_display. cbn [fold_left fst snd]. split.
  - apply dict_get_set_same.
  - intros Hk. rewrite (dict_get_set_other _ _ _ _ Hk). apply dict_get_set_same.
Qed.

Lemma epoch_generators_length get_batches_fn batch_size n :
  forall e, List.length (fst (epoch_generators get_batches_fn batch_size n e)) = n.
Proof.
  induction n as [ | n IH ]; intros e; cbn [epoch_generators]; [ reflexivity | ].
  destruct (get_batches_fn batch_size e) as [gen e']. specialize (IH e').
  destruct (epoch_generators get_batches_fn batch_size n e') as [gens e''].
  cbn [fst List.length] in *. now rewrite IH.
Qed.

Lemma keeps_env_ret {A} (a : A) : keeps_env (ret a).
Proof. intros w. reflexivity. Qed.

Lemma keeps_env_bind {A B} (m : M A) (f : A -> M B) :
  keeps_env m -> (forall a, keeps_env (f a)) -> keeps_env (bind m f).
Proof.
  intros Hm Hf w. specialize (Hm w). unfold bind.
  destruct (m w) as [[[a | e] w1] t1]; unfold final in *; cbn [fst snd] in *.
  - specialize (Hf a w1). destruct (f a w1) as [[r2 w2] t2].
    unfold final in Hf. cbn [fst snd] in *. congruence.
  - exact Hm.
Qed.

Lemma keeps_env_get_tensor_by_name name : keeps_env (get_tensor_by_name name).
Proof.
  intros w. unfold get_tensor_by_name.
  now destruct (graph_get_tensor_by_name name (sess w)).
Qed.

Lemma keeps_env_load_vgg path : keeps_env (load_vgg path).
Proof.
  unfold load_vgg. cbv zeta. apply keeps_env_bind.
  - intros w. unfold loader_load. now destruct (saved_model_loader_load _ _ _ _).
  - intros _.
    repeat (apply keeps_env_bind; [ apply keeps_env_get_tensor_by_name | intros ? ]).
    apply keeps_env_ret.
Qed.

Lemma keeps_env_build {A} (g : option A) : keeps_env (build g).
Proof. intros w. now destruct g. Qed.

Lemma keeps_env_sess_run_init : keeps_env sess_run_init.
Proof. intros w. unfold sess_run_init. now destruct (session_run_init (sess w)). Qed.

Lemma keeps_env_check_kitti_dataset d : keeps_env (check_kitti_dataset d).
Proof.
  intros w. unfold check_kitti_dataset. now destruct (test_for_kitti_dataset d (env w)).
Qed.

Section Loop.

Variables (batch_size : Z) (get_batches_fn : batch_function)
          (train_op : operation)
          (cross_entropy_loss input_image correct_label keep_prob learning_rate : tensor).

Let ok_step' := ok_step input_image correct_label keep_prob learning_rate.
Let epochs_events' := epochs_events batch_size input_image correct_label keep_prob
                                    learning_rate.
Let train_nn' epochs := train_nn epochs batch_size get_batches_fn train_op cross_entropy_loss
                                 input_image correct_label keep_prob learning_rate.
Let feed_of (b : batch) := step_feed input_image correct_label keep_prob learning_rate
                                     (fst b) (snd b).

Lemma loss_lines_app t1 t2 : loss_lines (t1 ++ t2) = loss_lines t1 ++ loss_lines t2.
Proof. apply flat_map_app. Qed.

Lemma loss_lines_steps steps : loss_lines (map ok_step' steps) = [].
Proof. induction steps as [ | s steps IH ]; [ reflexivity | exact IH ]. Qed.

Lemma loss_lines_silent rest : reports_nothing rest -> loss_lines rest = [].
Proof.
  induction 1 as [ | ev rest Hev _ IH ]; [ reflexivity | ].
  unfold loss_lines. cbn [flat_map]. fold (loss_lines rest). rewrite IH.
  destruct ev as [ | | | | | | l | | | ]; try reflexivity. destruct Hev.
Qed.

Lemma loss_lines_epochs segs :
  forall first,
    loss_lines (epochs_events' first segs) = map (cumulative_loss loss_zero) segs.
Proof.
  unfold epochs_events'.
  induction segs as [ | steps segs IH ]; intros first; [ reflexivity | ].
  cbn [epochs_events map]. rewrite loss_lines_app, IH. unfold epoch_events.
  change (GetBatches batch_size :: ?l) with ([GetBatches batch_size] ++ l).
  rewrite !loss_lines_app. fold ok_step'. rewrite loss_lines_steps. reflexivity.
Qed.

Lemma fed_dicts_app t1 t2 : fed_dicts (t1 ++ t2) = fed_dicts t1 ++ fed_dicts t2.
Proof. apply flat_map_app. Qed.

Lemma fed_dicts_steps steps :
  fed_dicts (map ok_step' steps) = map (fun s => feed_of (fst s)) steps.
Proof.
  induction steps as [ | s steps IH ]; [ reflexivity | ].
  cbn [map]. unfold fed_dicts in *. cbn [flat_map]. rewrite IH. reflexivity.
Qed.

Lemma fed_dicts_epochs segs :
  forall first,
    fed_dicts (epochs_events' first segs)
    = map feed_of (List.concat (map (map fst) segs)).
Proof.
  unfold epochs_events'.
  induction segs as [ | steps segs IH ]; intros first; [ reflexivity | ].
  cbn [epochs_events map List.concat]. rewrite fed_dicts_app, IH, map_app.
  f_equal. unfold epoch_events.
  change (GetBatches batch_size :: ?l) with ([GetBatches batch_size] ++ l).
  rewrite !fed_dicts_app. fold ok_step'. rewrite fed_dicts_steps.
  cbn [fed_dicts flat_map app]. rewrite app_nil_r, map_map. reflexivity.
Qed.

(** C3. The events of [train_nn] are those of a sequence of completed
    epochs followed by the events of an aborted epoch, which reports
    nothing. Each completed epoch performed one optimization step per batch
    its generator yielded, in order, and reports exactly one loss value:
    the sum, accumulated from 0 in the order of the steps, of the losses of
    its own steps. When the loop returns, all [epochs] epochs are complete
    and no generator raised. With an engine that performs every step and a
    generator that does not raise, the loop returns. *)
Theorem epoch_loss_is_sum_of_its_batches :
  forall epochs w,
    let o := train_nn' epochs w in
    let gens := fst (epoch_generators get_batches_fn batch_size (Z.to_nat epochs) (env w)) in
    (exists segs rest,
        trace o = epochs_events' 0 segs ++ rest
        /\ reports_nothing rest
        /\ loss_lines (trace o) = map (cumulative_loss loss_zero) segs
        /\ map (map fst) segs = map yields (firstn (List.length segs) gens)
        /\ (List.length segs <= Z.to_nat epochs)%nat
        /\ (forall u, outcome o = Returned u ->
            List.length segs = Z.to_nat epochs /\ rest = [] /\ Forall no_throw gens))
    /\ (engine_total train_op cross_entropy_loss ->
        (forall b e, no_throw (fst (get_batches_fn b e))) ->
        outcome o = Returned tt).
Proof.
  intros epochs w. cbv zeta. split; [ | apply train_nn_returns ].
  destruct (train_nn' epochs w) as [[r w'] t] eqn:E.
  pose proof E as E1. unfold train_nn', train_nn, range in E1.
  apply (epochs_completed batch_size get_batches_fn train_op cross_entropy_loss input_image
           correct_label keep_prob learning_rate (Z.to_nat epochs) 0%nat) in E1.
  destruct E1 as (segs & rest & Ht & Hr & Hs & Ho). change (Z.of_nat 0) with 0 in Ht.
  exists segs, rest. unfold trace, outcome. cbn [fst snd].
  split; [ exact Ht | ]. split; [ exact Hr | ]. split.
  { rewrite Ht, loss_lines_app, loss_lines_epochs, (loss_lines_silent rest Hr).
    apply app_nil_r. }
  split; [ exact Hs | ]. split; [ destruct r; lia | ].
  intros u Hu. subst r. destruct Ho as [Hl ->]. split; [ exact Hl | ].
  split; [ reflexivity | ].
  unfold train_nn', train_nn, range in E.
  apply (epochs_returned batch_size get_batches_fn train_op cross_entropy_loss input_image
           correct_label keep_prob learning_rate (Z.to_nat epochs) 0%nat) in E.
  exact (proj1 E).
Qed.

(** Every optimization step of [train_nn] is fed the dict
    display of lines 131-132 for some batch, whatever the epoch count, the
    batch size, the generator and the world: the learning rate gets 0.001
    and the keep probability, when it is another tensor than the learning
    rate, gets 0.5. When the loop returns, the steps were fed exactly the
    displays of all the batches its generators yielded, in order. *)
Lemma train_nn_feeds_constants :
  (forall epochs w, Forall (feeds_constants input_image correct_label keep_prob learning_rate)
                           (trace (train_nn' epochs w)))
  /\ (forall epochs w u w' t,
        train_nn' epochs w = (Returned u, w', t) ->
        fed_dicts t
        = map feed_of
              (List.concat
                 (map yields
                      (fst (epoch_generators get_batches_fn batch_size (Z.to_nat epochs)
                                             (env w)))))).
Proof.
  split.
  - intros epochs w. apply every_train_nn.
    + exact I.
    + intros X y r. cbn [feeds_constants]. split; [ now exists X, y | ].
      apply step_feed_constants.
    + intros total. exact I.
    + intros n _. exact I.
    + exact I.
  - intros epochs w u w' t E. unfold train_nn', train_nn, range in E.
    apply (epochs_returned batch_size get_batches_fn train_op cross_entropy_loss input_image
             correct_label keep_prob learning_rate (Z.to_nat epochs) 0%nat) in E.
    destruct E as (_ & _ & segs & -> & Hs).
    rewrite <- Hs. apply fed_dicts_epochs.
Qed.

Lemma generator_calls_returned epochs w u w' t :
  train_nn' epochs w = (Returned u, w', t) ->
  generator_calls t = repeat batch_size (Z.to_nat epochs)
  /\ epoch_numbers t = map (fun i => Z.of_nat i + 1) (seq 0 (Z.to_nat epochs)).
Proof.
  intros E.
  pose proof (train_nn_structure epochs batch_size get_batches_fn train_op
                cross_entropy_loss input_image correct_label keep_prob learning_rate w)
    as Hst.
  cbv zeta in Hst. fold (train_nn' epochs) in Hst. rewrite E in Hst.
  destruct Hst as (segs & rest & Ht & _ & Ho).
  unfold outcome in Ho. unfold trace in Ht. cbn [fst snd] in *.
  destruct Ho as [Hl ->]. rewrite app_nil_r in Ht. subst t. split.
  - now rewrite generator_calls_epochs, Hl.
  - rewrite (epoch_numbers_epochs batch_size input_image correct_label keep_prob
               learning_rate segs 0), Hl.
    reflexivity.
Qed.

End Loop.

(** What a returning training phase of [run] has done. *)
Lemma training_phase_returned w logits keep_prob img_input w1 t1 :
  training_phase w = (Returned (logits, keep_prob, img_input), w1, t1) ->
  exists train_op cross_entropy_loss w5 t6,
    maybe_download_pretrained_vgg "./data" (env w) = inr (env w5)
    /\ train_nn 50 16 (gen_batch_function "./data/data_road/training" (160, 576))
                train_op cross_entropy_loss img_input
                (Placeholder "correct_label" (Some [None; Some 160; Some 576; Some 2]))
                keep_prob (Placeholder "learning_rate" None) w5
       = (Returned tt, w1, t6)
    /\ t1 = run_preamble ++ t6.
Proof.
  unfold training_phase. cbv zeta.
  unfold bind at 1.
  pose proof (trace_check_kitti_dataset "./data" w) as Ta.
  pose proof (keeps_env_check_kitti_dataset "./data" w) as Ka.
  destruct (check_kitti_dataset "./data" w) as [[[ [] | e ] wa] ta]; [ | discriminate ].
  unfold trace in Ta. unfold final in Ka. cbn [fst snd] in Ta, Ka. subst ta.
  unfold bind at 1.
  pose proof (trace_download_pretrained_vgg "./data" wa) as Tb.
  assert (Kb : match download_pretrained_vgg "./data" wa with
               | (Returned _, wb, _) =>
                   maybe_download_pretrained_vgg "./data" (env wa) = inr (env wb)
               | _ => True
               end).
  { unfold download_pretrained_vgg.
    now destruct (maybe_download_pretrained_vgg "./data" (env wa)). }
  destruct (download_pretrained_vgg "./data" wa) as [[[ [] | e ] wb] tb]; [ | discriminate ].
  unfold trace in Tb. cbn [snd] in Tb. subst tb.
  unfold bind at 1.
  pose proof (trace_load_vgg (os_path_join "./data" "vgg") wb) as Tc.
  pose proof (keeps_env_load_vgg (os_path_join "./data" "vgg") wb) as Kc.
  destruct (load_vgg (os_path_join "./data" "vgg") wb)
    as [[[ [[[[img keep] layer3] layer4] layer7] | e ] wc] tc]; [ | discriminate ].
  unfold trace in Tc. unfold final in Kc. cbn [fst snd] in Tc, Kc. subst tc.
  unfold bind at 1.
  pose proof (trace_build (layers layer3 layer4 layer7 2) wc) as Td.
  pose proof (keeps_env_build (layers layer3 layer4 layer7 2) wc) as Kd.
  destruct (build (layers layer3 layer4 layer7 2) wc) as [[[ model_out | e ] wd] td];
    [ | discriminate ].
  unfold trace in Td. unfold final in Kd. cbn [fst snd] in Td, Kd. subst td.
  unfold optimize. cbv zeta.
  unfold bind at 1.
  pose proof (trace_sess_run_init wd) as Te.
  pose proof (keeps_env_sess_run_init wd) as Ke.
  destruct (sess_run_init wd) as [[[ [] | e ] we] te]; [ | discriminate ].
  unfold trace in Te. unfold final in Ke. cbn [fst snd] in Te, Ke. subst te.
  unfold bind at 1, NUM_EPOCHS, BATCH_SIZE.
  match goal with
  | |- context [train_nn 50 16 ?g ?op ?l ?i ?c ?k ?lr we] =>
      destruct (train_nn 50 16 g op l i c k lr we) as [[[ [] | e ] wf] tf] eqn:Ef;
        [ | discriminate ];
        intros H; exists op, l, we, tf
  end.
  unfold ret in H. inversion H; subst. split; [ | split; [ exact Ef | ] ].
  - rewrite <- Ka, Kb. f_equal. congruence.
  - rewrite app_nil_r. reflexivity.
Qed.

(** C4 (amended). In [train_nn], whatever its arguments and the world,
    every optimization step is fed the dict display of lines 131-132: the
    learning rate gets LR_VALUE = 0.001 and the keep probability, when it
    is another tensor than the learning rate, gets KP_VALUE = 0.5; when the
    loop returns, these displays were fed for all the batches the
    generators yielded, in order. When the training of [run] returns, it
    has called the generator NUM_EPOCHS = 50 times with BATCH_SIZE = 16,
    starting from the environment the download left, has printed the
    epochs 1 to 50, and has fed in this way all the batches these 50 calls
    yielded. *)
Theorem hyperparameters_are_constants :
  (forall epochs batch_size get_batches_fn train_op cross_entropy_loss
          input_image correct_label keep_prob learning_rate w,
      let o := train_nn epochs batch_size get_batches_fn train_op cross_entropy_loss
                        input_image correct_label keep_prob learning_rate w in
      Forall (feeds_constants input_image correct_label keep_prob learning_rate) (trace o)
      /\ (forall u, outcome o = Returned u ->
          fed_dicts (trace o)
          = map (fun b : batch => step_feed input_image correct_label keep_prob learning_rate
                                            (fst b) (snd b))
                (List.concat
                   (map yields
                        (fst (epoch_generators get_batches_fn batch_size (Z.to_nat epochs)
                                               (env w)))))))
  /\ (forall w logits keep_prob img_input w1 t1,
        training_phase w = (Returned (logits, keep_prob, img_input), w1, t1) ->
        let correct_label :=
          Placeholder "correct_label" (Some [None; Some 160; Some 576; Some 2]) in
        let learning_rate := Placeholder "learning_rate" None in
        exists e5,
          maybe_download_pretrained_vgg "./data" (env w) = inr e5
          /\ generator_calls t1 = repeat 16 50
          /\ epoch_numbers t1 = map (fun i => Z.of_nat i + 1) (seq 0 50)
          /\ Forall (feeds_constants img_input correct_label keep_prob learning_rate) t1
          /\ fed_dicts t1
             = map (fun b : batch => step_feed img_input correct_label keep_prob
                                               learning_rate (fst b) (snd b))
                   (List.concat
                      (map yields
                           (fst (epoch_generators
                                   (gen_batch_function "./data/data_road/training"
                                                       (160, 576))
                                   16 50 e5))))).
Proof.
  split.
  - intros epochs batch_size get_batches_fn train_op cross_entropy_loss
           input_image correct_label keep_prob learning_rate w o.
    destruct (train_nn_feeds_constants batch_size get_batches_fn train_op cross_entropy_loss
                input_image correct_label keep_prob learning_rate) as [H1 H2].
    split; [ apply H1 | ]. intros u Hu. subst o.
    destruct (train_nn _ _ _ _ _ _ _ _ _ w) as [[r w'] t] eqn:E.
    unfold outcome in Hu. cbn [fst] in Hu. subst r.
    unfold trace. cbn [snd]. apply (H2 epochs w u w' t E).
  - intros w logits keep_prob img_input w1 t1 E. cbv zeta.
    apply training_phase_returned in E.
    destruct E as (train_op & cross_entropy_loss & w5 & t6 & Hd & E & ->).
    destruct (generator_calls_returned _ _ _ _ _ _ _ _ _ _ _ _ _ E) as [Hg He].
    change (Z.to_nat 50) with 50%nat in Hg, He.
    destruct (train_nn_feeds_constants
                16 (gen_batch_function "./data/data_road/training" (160, 576))
                train_op cross_entropy_loss img_input
                (Placeholder "correct_label" (Some [None; Some 160; Some 576; Some 2]))
                keep_prob (Placeholder "learning_rate" None)) as [H1 H2].
    cbv beta zeta in H1, H2.
    exists (env w5). split; [ exact Hd | ]. split; [ | split; [ | split ] ].
    + rewrite generator_calls_app, Hg. reflexivity.
    + rewrite epoch_numbers_app, He. reflexivity.
    + apply Forall_app. split; [ repeat constructor | ].
      specialize (H1 50 w5). rewrite E in H1. exact H1.
    + rewrite fed_dicts_app. exact (H2 50 w5 tt w1 t6 E).
Qed.

(** Drawing random numbers leaves the stored training samples alone. *)
Lemma shuffle_keeps_samples data_folder image_shape :
  (forall k e, training_samples data_folder image_shape (snd (randbelow k e))
               = training_samples data_folder image_shape e) ->
  forall {A} n (l : list A) e,
    training_samples data_folder image_shape (snd (shuffle n l e))
    = training_samples data_folder image_shape e.
Proof.
  intros Hr A n. induction n as [ | n IH ]; intros l e; cbn [shuffle]; [ reflexivity | ].
  specialize (Hr (S n) e). destruct (randbelow (S n) e) as [i e']. cbn [snd] in Hr.
  destruct (remove_nth _ l) as [[x rest] | ]; [ | exact Hr ].
  specialize (IH rest e'). destruct (shuffle n rest e') as [t e'']. cbn [snd] in *.
  congruence.
Qed.

Lemma yields_yield_all bs :
  yields (yield_all bs) = map (fun c => (map fst c, map snd c)) bs.
Proof. induction bs as [ | b bs IH ]; [ reflexivity | ]. simpl. now rewrite IH. Qed.

Lemma epoch_generators_shuffles data_folder image_shape b samples :
  1 <= b ->
  (forall k e, training_samples data_folder image_shape (snd (randbelow k e))
               = training_samples data_folder image_shape e) ->
  forall n e,
    training_samples data_folder image_shape e = inr samples ->
    map yields (fst (epoch_generators (gen_batch_function data_folder image_shape) b n e))
    = map (batches_of (Z.to_nat b)) (fst (successive_shuffles samples n e))
    /\ snd (epoch_generators (gen_batch_function data_folder image_shape) b n e)
       = snd (successive_shuffles samples n e).
Proof.
  intros Hb Hr n. induction n as [ | n IH ]; intros e Hs;
    cbn [epoch_generators successive_shuffles]; [ split; reflexivity | ].
  rewrite (gen_batch_function_unfold _ _ _ _ _ Hb Hs).
  pose proof (shuffle_keeps_samples data_folder image_shape Hr
                (List.length samples) samples e) as Hk.
  destruct (shuffle (List.length samples) samples e) as [order e']. cbn [fst snd] in *.
  rewrite Hs in Hk. destruct (IH e' Hk) as [H1 H2].
  destruct (epoch_generators _ b n e') as [gens e1].
  destruct (successive_shuffles samples n e') as [orders e2]. cbn [fst snd map] in *.
  split; [ | exact H2 ]. rewrite H1, yields_yield_all. reflexivity.
Qed.

End Epochs.

(** C8. A training loop that returns has called the batch generator once
    per epoch, with the batch size. With the batch generator of the
    helper, on a training set that drawing random numbers leaves alone,
    the epochs of a returning loop train on successive shuffles of the
    training set, cut into batches: the shuffle of an epoch is drawn from
    the state of the random generator that the shuffle of the epoch before
    left. The orders of successive epochs need not be the same: on the
    concrete platform the first and the second epoch of a run feed
    different batch sequences. *)
Theorem order_is_redrawn_every_epoch :
  (forall (P : Platform) epochs batch_size get_batches_fn train_op cross_entropy_loss
          input_image correct_label keep_prob learning_rate w u,
      outcome (train_nn epochs batch_size get_batches_fn train_op cross_entropy_loss
                        input_image correct_label keep_prob learning_rate w) = Returned u ->
      generator_calls
        (trace (train_nn epochs batch_size get_batches_fn train_op cross_entropy_loss
                         input_image correct_label keep_prob learning_rate w))
      = repeat batch_size (Z.to_nat epochs))
  /\ (forall (P : Platform) data_folder image_shape epochs b train_op cross_entropy_loss
            input_image correct_label keep_prob learning_rate w samples u w' t,
        1 <= b ->
        training_samples data_folder image_shape (env w) = inr samples ->
        (forall k e, training_samples data_folder image_shape (snd (randbelow k e))
                     = training_samples data_folder image_shape e) ->
        train_nn epochs b (gen_batch_function data_folder image_shape) train_op
                 cross_entropy_loss input_image correct_label keep_prob learning_rate w
        = (Returned u, w', t) ->
        let shuffles := successive_shuffles samples (Z.to_nat epochs) (env w) in
        exists segs,
          t = epochs_events b input_image correct_label keep_prob learning_rate 0 segs
          /\ map (map fst) segs = map (batches_of (Z.to_nat b)) (fst shuffles)
          /\ env w' = snd shuffles)
  /\ (let orders :=
        fst (@successive_shuffles Toy.platform _ Toy.four_samples 2 (env Toy.world0)) in
      nth 0 orders [] <> nth 1 orders []
      /\ exists seg1 seg2,
          trace (Toy.toy_train 2 2 Toy.world0)
          = @epochs_events Toy.platform 2 Toy.h_input Toy.h_label Toy.h_keep Toy.h_lr 0
                           [seg1; seg2]
          /\ map fst seg1 = @batches_of Toy.platform 2 (nth 0 orders [])
          /\ map fst seg2 = @batches_of Toy.platform 2 (nth 1 orders [])
          /\ map fst seg1 <> map fst seg2).
Proof.
  split; [ | split ].
  - intros P epochs batch_size get_batches_fn train_op cross_entropy_loss
           input_image correct_label keep_prob learning_rate w u Hu.
    destruct (train_nn _ _ _ _ _ _ _ _ _ w) as [[r w'] t] eqn:E.
    unfold outcome in Hu. cbn [fst] in Hu. subst r. unfold trace. cbn [snd].
    apply (generator_calls_returned _ _ _ _ _ _ _ _ _ _ _ _ _ E).
  - intros P data_folder image_shape epochs b train_op cross_entropy_loss
           input_image correct_label keep_prob learning_rate w samples u w' t
           Hb Hs Hr E shuffles.
    unfold train_nn, range in E.
    apply (epochs_returned b (gen_batch_function data_folder image_shape) train_op
             cross_entropy_loss input_image correct_label keep_prob learning_rate
             (Z.to_nat epochs) 0%nat) in E.
    destruct E as (_ & He & segs & Ht & Hm).
    destruct (epoch_generators_shuffles data_folder image_shape b samples Hb Hr
                (Z.to_nat epochs) (env w) Hs) as [H1 H2].
    exists segs. split; [ exact Ht | ]. split; [ now rewrite Hm, H1 | now rewrite He, H2 ].
  - split; [ vm_compute; discriminate | ].
    exists [ (([1; 3], [true; true]), 4); (([4; 2], [true; true]), 7) ],
           [ (([2; 4], [true; true]), 8); (([3; 1], [true; true]), 7) ].
    split; [ reflexivity | ]. split; [ reflexivity | ]. split; [ reflexivity | discriminate ].
Qed.

(** * Further concrete runs *)

Lemma nonpositive_epochs_do_nothing_witness :
  Toy.toy_train (-3) 2 Toy.world0 = (Returned tt, Toy.world0, []).
Proof.
  apply (@nonpositive_epochs_do_nothing Toy.platform 2 Toy.toy_batches Toy.h_train_op
           Toy.h_loss Toy.h_input Toy.h_label Toy.h_keep Toy.h_lr (-3) Toy.world0).
  lia.
Defined.

Lemma one_more_epoch_witness :
  Toy.toy_train (1 + 1) 2 Toy.world0
  = bind (Toy.toy_train 1 2)
         (fun _ => train_epoch 2 Toy.toy_batches Toy.h_train_op Toy.h_loss Toy.h_input
                               Toy.h_label Toy.h_keep Toy.h_lr 1)
         Toy.world0.
Proof.
  apply (@one_more_epoch Toy.platform 2 Toy.toy_batches Toy.h_train_op Toy.h_loss
           Toy.h_input Toy.h_label Toy.h_keep Toy.h_lr 1 Toy.world0).
  lia.
Defined.

Lemma returned_run_trains_on_every_batch_witness :
  exists segs,
    trace (Toy.toy_train 2 2 Toy.world0)
    = @epochs_events Toy.platform 2 Toy.h_input Toy.h_label Toy.h_keep Toy.h_lr 0 segs
    /\ map (map fst) segs
       = map yields (fst (epoch_generators Toy.toy_batches 2 2 (env Toy.world0))).
Proof.
  destruct (Toy.toy_train 2 2 Toy.world0) as [[[[] | e] w'] t] eqn:E.
  - exact (proj2 (proj2 (@returned_run_trains_on_every_batch Toy.platform 2 Toy.toy_batches
                           Toy.h_train_op Toy.h_loss Toy.h_input Toy.h_label Toy.h_keep
                           Toy.h_lr 2 Toy.world0 tt w' t E))).
  - apply (f_equal (fun o => match outcome o with
                             | Returned _ => true
                             | Raised _ => false
                             end)) in E.
    vm_compute in E. discriminate E.
Defined.

Lemma generator_exception_propagates_witness :
  exists losses w',
    List.length losses = 1%nat
    /\ @train_nn Toy.steady 2 2 Cases.broken_batches Toy.h_train_op Toy.h_loss Toy.h_input
                 Toy.h_label Toy.h_keep Toy.h_lr Toy.steady_world
       = (@Raised Toy.steady unit "disk error", w',
          @GetBatches Toy.steady 2 ::
          map (@ok_step Toy.steady Toy.h_input Toy.h_label Toy.h_keep Toy.h_lr)
              (combine [([1], [true])] losses)).
Proof.
  apply (@generator_exception_propagates Toy.steady 2 Cases.broken_batches Toy.h_train_op
           Toy.h_loss Toy.h_input Toy.h_label Toy.h_keep Toy.h_lr 2 Toy.steady_world
           "disk error").
  - lia.
  - intros fd s. do 2 eexists. reflexivity.
  - reflexivity.
Defined.

Lemma empty_epochs_report_zero_witness :
  exists w',
    @train_nn Toy.platform 3 2 Cases.no_batches Toy.h_train_op Toy.h_loss Toy.h_input
              Toy.h_label Toy.h_keep Toy.h_lr Toy.world0
    = (Returned tt, w',
       @epochs_events Toy.platform 2 Toy.h_input Toy.h_label Toy.h_keep Toy.h_lr 0
                      [[]; []; []])
    /\ sess w' = 0.
Proof.
  destruct (@empty_epochs_report_zero Toy.platform 2 Cases.no_batches Toy.h_train_op
              Toy.h_loss Toy.h_input Toy.h_label Toy.h_keep Toy.h_lr 3 Toy.world0)
    as (w' & E & Hs & _).
  - intros e. reflexivity.
  - exists w'. split; [ exact E | exact Hs ].
Defined.

Lemma layers_output_shape_witness :
  exists g,
    layers (Placeholder "layer3_out:0" (Some [None; Some 20; Some 72; Some 256]))
           (Placeholder "layer4_out:0" (Some [None; Some 10; Some 36; Some 512]))
           (Placeholder "layer7_out:0" (Some [None; Some 5; Some 18; Some 4096])) 2 = Some g
    /\ get_shape g = Some [None; Some 160; Some 576; Some 2].
Proof.
  apply (proj2 layers_output_shape
               "layer3_out:0" "layer4_out:0" "layer7_out:0"
               None (Some 20) (Some 72) None (Some 10) (Some 36) None (Some 5) (Some 18)
               256 512 4096 2).
  - lia.
  - lia.
  - lia.
  - lia.
  - simpl. lia.
  - simpl. lia.
  - repeat split; reflexivity.
Defined.

Lemma layers_needs_known_channels_witness :
  exists c4, as_list_last (get_shape (Toy.vgg_tensor "layer4_out:0")) = Some (Some c4).
Proof.
  eapply (layers_needs_known_channels (Toy.vgg_tensor "layer3_out:0")
            (Toy.vgg_tensor "layer4_out:0") (Toy.vgg_tensor "layer7_out:0") 2).
  reflexivity.
Defined.

Lemma run_prepares_before_training_witness :
  exists mid, @run_preamble Toy.platform = run_preamble ++ mid.
Proof.
  eapply (@run_prepares_before_training Toy.platform Toy.world_bad run_preamble
            (@GetBatches Toy.platform 16)).
  - reflexivity.
  - reflexivity.
Defined.

Lemma run_stops_on_graph_error_witness :
  @run Cases.narrow Cases.narrow_world
  = (@Raised Cases.narrow unit "graph construction failed", Cases.narrow_world,
     [ @CheckDataset Cases.narrow "./data"; @DownloadVgg Cases.narrow "./data";
       @LoadModel Cases.narrow ["vgg16"] "./data/vgg" ]).
Proof.
  apply (@run_stops_on_graph_error Cases.narrow Cases.narrow_world
           (env Cases.narrow_world) 0
           (Cases.narrow_tensor "image_input:0") (Cases.narrow_tensor "keep_prob:0")
           (Cases.narrow_tensor "layer3_out:0") (Cases.narrow_tensor "layer4_out:0")
           (Cases.narrow_tensor "layer7_out:0")); reflexivity.
Defined.

Lemma failed_training_writes_nothing_witness :
  outcome (run Toy.world_bad) = @Raised Toy.platform unit "shape mismatch".
Proof.
  apply (@failed_training_writes_nothing Toy.platform Toy.world_bad "shape mismatch").
  reflexivity.
Defined.

Lemma load_vgg_outcomes_witness :
  exists e',
    @load_vgg Cases.headless "./data/vgg" Cases.headless_world
    = (@Raised Cases.headless _ e', Cases.headless_world,
       [ @LoadModel Cases.headless ["vgg16"] "./data/vgg" ]).
Proof.
  apply (proj1 (proj2 (@load_vgg_outcomes Cases.headless)) "./data/vgg" Cases.headless_world
               0 "layer7_out:0" "KeyError: layer7_out:0").
  - reflexivity.
  - unfold vgg_tensor_names. simpl. tauto.
  - reflexivity.
Defined.

Lemma layers_builds_on_unknown_extents_witness :
  exists g,
    layers (Placeholder "layer3_out:0" (Some [None; None; None; Some 256]))
           (Placeholder "layer4_out:0" (Some [None; None; None; Some 512]))
           (Placeholder "layer7_out:0" (Some [None; None; None; Some 4096])) 2
    = Some g
    /\ get_shape g = Some [None; None; None; Some 2]
    /\ Forall same_shapes (adds_of g).
Proof.
  apply (layers_builds_on_unknown_extents "layer3_out:0" "layer4_out:0" "layer7_out:0"
           256 512 4096 2); lia.
Defined.

(** ** Concrete runs of the epoch properties *)

Lemma epoch_loss_is_sum_of_its_batches_witness :
  let o := @train_nn Toy.steady 2 2 Toy.two_batches Toy.h_train_op Toy.h_loss Toy.h_input
                     Toy.h_label Toy.h_keep Toy.h_lr Toy.steady_world in
  outcome o = Returned tt
  /\ @step_losses Toy.steady (trace o) = [3; 8; 5; 10]
  /\ @loss_lines Toy.steady (trace o) = [11; 15]
  /\ exists segs,
      trace o = @epochs_events Toy.steady 2 Toy.h_input Toy.h_label Toy.h_keep Toy.h_lr 0 segs
      /\ map (map fst) segs
         = [ [ ([1; 2], [true; true]); ([3; 4], [true; true]) ];
             [ ([1; 2], [true; true]); ([3; 4], [true; true]) ] ]
      /\ map (@cumulative_loss Toy.steady 0) segs = [11; 15].
Proof.
  intros o.
  destruct (@epoch_loss_is_sum_of_its_batches Toy.steady 2 Toy.two_batches Toy.h_train_op
              Toy.h_loss Toy.h_input Toy.h_label Toy.h_keep Toy.h_lr 2 Toy.steady_world)
    as [(segs & rest & Ht & _ & Hll & Hs & _ & Hr) Hret].
  assert (Ho : outcome o = Returned tt).
  { apply Hret.
    - intros fd s. do 2 eexists. reflexivity.
    - intros b e. exact I. }
  split; [ exact Ho | ]. split; [ reflexivity | ]. split; [ reflexivity | ].
  destruct (Hr tt Ho) as (Hl & -> & _). exists segs.
  split; [ rewrite app_nil_r in Ht; exact Ht | ].
  split; [ rewrite Hl in Hs; exact Hs | ].
  etransitivity; [ symmetry; exact Hll | reflexivity ].
Defined.

Lemma hyperparameters_are_constants_witness :
  @fed_dicts Toy.platform (trace (Toy.toy_train 1 2 Toy.world0))
  = [ [ (Toy.h_input, FImages [1; 3]); (Toy.h_label, FLabels [true; true]);
        (Toy.h_keep, FScalar 0.5%Q); (Toy.h_lr, FScalar 0.001%Q) ];
      [ (Toy.h_input, FImages [4; 2]); (Toy.h_label, FLabels [true; true]);
        (Toy.h_keep, FScalar 0.5%Q); (Toy.h_lr, FScalar 0.001%Q) ] ]
  /\ @generator_calls Toy.platform (trace (training_phase Toy.world0)) = repeat 16 50
  /\ @epoch_numbers Toy.platform (trace (training_phase Toy.world0))
     = map (fun i => Z.of_nat i + 1) (seq 0 50)
  /\ List.length (@fed_dicts Toy.platform (trace (training_phase Toy.world0))) = 50%nat.
Proof.
  split.
  - etransitivity.
    + exact (proj2 (proj1 (@hyperparameters_are_constants Toy.platform) 1 2 Toy.toy_batches
                          Toy.h_train_op Toy.h_loss Toy.h_input Toy.h_label Toy.h_keep
                          Toy.h_lr Toy.world0)
                   tt eq_refl).
    + reflexivity.
  - destruct (training_phase Toy.world0)
      as [[[[[logits keep_prob] img_input] | e] w1] t1] eqn:E.
    + destruct (proj2 (@hyperparameters_are_constants Toy.platform) Toy.world0 logits
                      keep_prob img_input w1 t1 E) as (e5 & Hd & Hg & He & _ & Hf).
      unfold trace. cbn [snd].
      split; [ exact Hg | ]. split; [ exact He | ].
      rewrite Hf. injection Hd as <-. rewrite length_map. vm_compute. reflexivity.
    + apply (f_equal (fun o => match outcome o with
                               | Returned _ => true
                               | Raised _ => false
                               end)) in E.
      vm_compute in E. discriminate E.
Defined.

(** When the same placeholder is passed for the keep probability and for
    the learning rate, the dict display of lines 131-132 has one entry for
    it, with the value written last: every step is fed 0.001 for the keep
    probability, and 0.5 is fed nowhere. *)
Lemma keep_prob_can_be_fed_learning_rate :
  let o := @train_nn Toy.platform 1 2 Toy.toy_batches Toy.h_train_op Toy.h_loss Toy.h_input
                     Toy.h_label Toy.h_lr Toy.h_lr Toy.world0 in
  outcome o = Returned tt
  /\ fed_dicts (trace o)
     = [ [ (Toy.h_input, FImages [1; 3]); (Toy.h_label, FLabels [true; true]);
           (Toy.h_lr, FScalar 0.001%Q) ];
         [ (Toy.h_input, FImages [4; 2]); (Toy.h_label, FLabels [true; true]);
           (Toy.h_lr, FScalar 0.001%Q) ] ]
  /\ Forall (fun fd => dict_get fd Toy.h_lr <> Some (FScalar KP_VALUE)) (fed_dicts (trace o))
  /\ ~ (LR_VALUE == KP_VALUE)%Q.
Proof.
  cbv zeta. split; [ reflexivity | ]. split; [ reflexivity | ].
  split; [ | discriminate ].
  repeat constructor; discriminate.
Qed.

Lemma order_is_redrawn_every_epoch_witness :
  generator_calls (trace (Toy.toy_train 2 2 Toy.world0)) = [2; 2]
  /\ exists segs w',
      Toy.toy_train 2 2 Toy.world0
      = (Returned tt, w',
         @epochs_events Toy.platform 2 Toy.h_input Toy.h_label Toy.h_keep Toy.h_lr 0 segs)
      /\ map (map fst) segs
         = [ [ ([1; 3], [true; true]); ([4; 2], [true; true]) ];
             [ ([2; 4], [true; true]); ([3; 1], [true; true]) ] ]
      /\ env w' = snd (@successive_shuffles Toy.platform _ Toy.four_samples 2
                                            (env Toy.world0)).
Proof.
  split.
  - apply (proj1 order_is_redrawn_every_epoch Toy.platform 2 2 Toy.toy_batches
                 Toy.h_train_op Toy.h_loss Toy.h_input Toy.h_label Toy.h_keep Toy.h_lr
                 Toy.world0 tt).
    reflexivity.
  - destruct (Toy.toy_train 2 2 Toy.world0) as [[[[] | e] w'] t] eqn:E.
    + destruct (proj1 (proj2 order_is_redrawn_every_epoch) Toy.platform
                      "./data/data_road/training" (160, 576) 2 2 Toy.h_train_op Toy.h_loss
                      Toy.h_input Toy.h_label Toy.h_keep Toy.h_lr Toy.world0
                      Toy.four_samples tt w' t)
        as (segs & Ht & Hm & He).
      * lia.
      * reflexivity.
      * intros k e. reflexivity.
      * exact E.
      * exists segs, w'. rewrite Ht. split; [ reflexivity | ]. split; [ exact Hm | exact He ].
    + apply (f_equal (fun o => match outcome o with
                               | Returned _ => true
                               | Raised _ => false
                               end)) in E.
      vm_compute in E. discriminate E.
Defined.
